(** * Preference matching and ranking engine of [app.py]

    A shallow embedding of the four functions of [src/app.py] that carry the
    decision logic of the housing recommender:

    - [get_filters]                 (the attribute normalizer),
    - [calculate_match_percentage]  (the compatibility scorer),
    - [get_all_houses]              (the listing directory),
    - [get_all_probas]              (the candidate ranker).

    Python dictionaries are finite maps ([gmap string value]); the two
    dictionaries the scorer mutates with [pop] live in its frame and are
    returned with the score.  Exceptions, early [return]s and the calls to
    [logger] are explicit: a statement is a function from a state to an
    outcome and a new state.  The MongoDB collection is an oracle indexed by a
    logical clock, so that its answers may change between two calls.  Floats
    are IEEE-754 binary64 numbers, computed with [SpecFloat]. *)

From stdpp Require Import gmap strings list.
From Stdlib Require Import ZArith Strings.Ascii Floats.SpecFloat.

Open Scope string_scope.
Open Scope Z_scope.

(** ** Python values *)

(** The fragment of the values a BSON document can hold that the engine is
    modelled on.  A [str] is the sequence of its UTF-8 bytes; [bytes] (and
    [bson.Binary], a subclass of it) is a byte sequence too.  Floats, nested
    documents and dates are outside the fragment. *)
#[local] Set Warnings "-register-all".
Inductive value : Type :=
| VNone
| VBool (b : bool)
| VInt (z : Z)
| VStr (s : string)
| VBytes (b : string)
| VList (l : list value).

(** The exception classes the source distinguishes in its handlers. *)
Inductive exn : Type :=
| ValueError
| TypeError
| OtherException (name : string).

Inductive result (A : Type) : Type :=
| Ok (a : A)
| Raise (e : exn).
Arguments Ok {A} a.
Arguments Raise {A} e.

Abbreviation dict := (gmap string value).

(** ** Strings *)

(** [needle in hay] on two [str]: [needle] occurs in [hay] as a substring. *)
Fixpoint str_contains (needle hay : string) : bool :=
  String.prefix needle hay ||
  match hay with
  | EmptyString => false
  | String _ rest => str_contains needle rest
  end.

(** [s.replace(c, '')] for a one-character [c]. *)
Fixpoint str_remove (c : Ascii.ascii) (s : string) : string :=
  match s with
  | EmptyString => EmptyString
  | String a rest =>
      if Ascii.eqb a c then str_remove c rest else String a (str_remove c rest)
  end.

(** ** Operators and builtins *)

(** [a == b]. [bool] is a subclass of [int], so [True == 1]. *)
Fixpoint py_eq (a b : value) : bool :=
  match a, b with
  | VNone, VNone => true
  | VBool x, VBool y => Bool.eqb x y
  | VBool x, VInt y => Z.b2z x =? y
  | VInt x, VBool y => x =? Z.b2z y
  | VInt x, VInt y => x =? y
  | VStr x, VStr y => String.eqb x y
  | VBytes x, VBytes y => String.eqb x y
  | VList x, VList y =>
      (fix all2 (x y : list value) {struct x} : bool :=
         match x, y with
         | [], [] => true
         | a :: x', b :: y' => py_eq a b && all2 x' y'
         | _, _ => false
         end) x y
  | _, _ => false
  end.

(** [a + b]. *)
Definition py_add (a b : value) : result value :=
  match a, b with
  | VBool x, VBool y => Ok (VInt (Z.b2z x + Z.b2z y))
  | VBool x, VInt y => Ok (VInt (Z.b2z x + y))
  | VInt x, VBool y => Ok (VInt (x + Z.b2z y))
  | VInt x, VInt y => Ok (VInt (x + y))
  | VStr x, VStr y => Ok (VStr (x +:+ y))
  | VBytes x, VBytes y => Ok (VBytes (x +:+ y))
  | VList x, VList y => Ok (VList (x ++ y))
  | _, _ => Raise TypeError
  end.

(** [label in container] for a [str] literal [label]. *)
Definition py_in (label : string) (container : value) : result bool :=
  match container with
  | VStr s => Ok (str_contains label s)
  | VList l => Ok (existsb (py_eq (VStr label)) l)
  | VNone | VBool _ | VInt _ | VBytes _ => Raise TypeError
  end.

(** Truth value of an object, as tested by [if x:] and [not x]. *)
Definition py_truthy (v : value) : bool :=
  match v with
  | VNone => false
  | VBool b => b
  | VInt z => negb (z =? 0)
  | VStr s | VBytes s => negb (String.eqb s "")
  | VList l => match l with [] => false | _ => true end
  end.

(** [d.get(key, default)] and [d.get(key)]. *)
Definition dict_get (d : dict) (key : string) (default : value) : value :=
  match d !! key with
  | Some v => v
  | None => default
  end.

(** ** Floats *)

Abbreviation float := spec_float.

Definition float_of_int (z : Z) : float := binary_normalize 53 1024 z 0 false.
Definition float_mul : float -> float -> float := SFmul 53 1024.
Definition float_div : float -> float -> float := SFdiv 53 1024.
Definition float_leb : float -> float -> bool := SFleb.
Definition float_ltb : float -> float -> bool := SFltb.

(** The literal [0.0]. *)
Definition float_zero : float := S754_zero false.

(** [a / b] on two [int]s, for a non-zero [b]: both convert exactly (the
    counters of the scorer are small) and the quotient is rounded once. *)
Definition int_truediv (a b : Z) : float :=
  float_div (float_of_int a) (float_of_int b).

(** [x * 100] for a float [x]. *)
Definition float_times_100 (x : float) : float :=
  float_mul x (float_of_int 100).

(** ** Log records *)

Inductive level : Type := DEBUG | INFO | WARNING | ERROR.

(** One constructor per call to [logger] in the source, with the values its
    f-string formats. *)
Inductive message : Type :=
| FetchingFilters (uuid_str : string)
| UuidConverted (binary_uuid : string)
| InvalidUuid
| UserNotFound
| UserFound
| UserLookupFailed (e : exn)
| FilterExtracted (field : string) (v : value)
| FiltersObtained
| CalculatingMatch
| AllergyDetected
| PetOverrideApplied
| GenderWildcardApplied
| OccupancyMatched (housing_max university_max : Z)
| OccupancyConversionError (e : exn)
| FieldMatches (field : string)
| TotalIsZero
| PercentageComputed (match_percentage : float)
| MatchFailed (e : exn)
| FetchingHouses
| QueryDone
| UuidAdded (uuid_str : string)
| UuidConversionError (e : exn)
| HousesFound (n : nat)
| HousesLookupFailed (e : exn)
| StartingProbas (university_uuid : string)
| HouseProbability (house_uuid : string) (probability : float)
| HouseAdded (house_uuid : string) (probability : float)
| HousesSorted
| ProbasFailed (e : exn).

Definition log_record : Type := level * message.

(** ** Statements

    A statement runs in a state [S]; it yields a value, leaves the enclosing
    function with [return r], or raises. *)
Inductive outcome (R A : Type) : Type :=
| Value (a : A)
| Returned (r : R)
| Raised (e : exn).
Arguments Value {R A} a.
Arguments Returned {R A} r.
Arguments Raised {R A} e.

Definition stmt (S R A : Type) : Type := S -> outcome R A * S.

Definition pure {S R A} (a : A) : stmt S R A := fun s => (Value a, s).

Definition bind {S R A B} (m : stmt S R A) (k : A -> stmt S R B) : stmt S R B :=
  fun s =>
    match m s with
    | (Value a, s') => k a s'
    | (Returned r, s') => (Returned r, s')
    | (Raised e, s') => (Raised e, s')
    end.

Notation "x <- m ;; k" := (bind m (fun x => k))
  (at level 100, m at next level, right associativity).
Notation "m ;; k" := (bind m (fun _ => k))
  (at level 100, right associativity).

Definition return_ {S R A} (r : R) : stmt S R A := fun s => (Returned r, s).

Definition raise {S R A} (e : exn) : stmt S R A := fun s => (Raised e, s).

(** The result of a builtin, as a statement. *)
Definition lift {S R A} (r : result A) : stmt S R A :=
  match r with
  | Ok a => pure a
  | Raise e => raise e
  end.

Definition modify {S R} (f : S -> S) : stmt S R unit := fun s => (Value tt, f s).

Definition read {S R A} (f : S -> A) : stmt S R A := fun s => (Value (f s), s).

(** [try: body / except <classes> as e: handler e]. *)
Definition try_except {S R A} (body : stmt S R A) (classes : exn -> bool)
    (handler : exn -> stmt S R A) : stmt S R A :=
  fun s =>
    match body s with
    | (Raised e, s') => if classes e then handler e s' else (Raised e, s')
    | other => other
    end.

Definition is_ValueError (e : exn) : bool :=
  match e with ValueError => true | _ => false end.

Definition is_ValueError_or_TypeError (e : exn) : bool :=
  match e with ValueError | TypeError => true | _ => false end.

(** [except Exception]. *)
Definition is_Exception (e : exn) : bool := true.

(** [for x in l: acc = body acc x], for the local [acc] the loop updates. *)
Fixpoint for_each {S R A B} (l : list A) (acc : B)
    (body : B -> A -> stmt S R B) : stmt S R B :=
  match l with
  | [] => pure acc
  | x :: rest => acc' <- body acc x ;; for_each rest acc' body
  end.

(** A call: the callee's [return r] is the value of the call. *)
Definition call {S R R'} (callee : stmt S R R) : stmt S R' R :=
  fun s =>
    match callee s with
    | (Value r, s') | (Returned r, s') => (Value r, s')
    | (Raised e, s') => (Raised e, s')
    end.

(** ** States *)

(** The process: a logical clock that counts the queries sent to the
    collection, and the records logged so far. *)
Record world : Type := World {
  clock : nat;
  log : list log_record
}.

(** The locals of one call of the scorer, with the two dictionaries it was
    given (it mutates them) and the log. *)
Record frame : Type := Frame {
  housing_filters : dict;
  university_filters : dict;
  total_filters : Z;
  matched_filters : Z;
  frame_log : list log_record
}.

Class Logging (S : Type) : Type := emit : log_record -> S -> S.

#[global] Instance world_logging : Logging world :=
  fun r w => {| clock := clock w; log := log w ++ [r] |}.

#[global] Instance frame_logging : Logging frame :=
  fun r f =>
    {| housing_filters := housing_filters f;
       university_filters := university_filters f;
       total_filters := total_filters f;
       matched_filters := matched_filters f;
       frame_log := frame_log f ++ [r] |}.

Definition logger {S R} `{Logging S} (l : level) (m : message) : stmt S R unit :=
  modify (emit (l, m)).

Definition set_housing_filters (d : dict) (f : frame) : frame :=
  {| housing_filters := d;
     university_filters := university_filters f;
     total_filters := total_filters f;
     matched_filters := matched_filters f;
     frame_log := frame_log f |}.

Definition set_university_filters (d : dict) (f : frame) : frame :=
  {| housing_filters := housing_filters f;
     university_filters := d;
     total_filters := total_filters f;
     matched_filters := matched_filters f;
     frame_log := frame_log f |}.

Definition set_total_filters (n : Z) (f : frame) : frame :=
  {| housing_filters := housing_filters f;
     university_filters := university_filters f;
     total_filters := n;
     matched_filters := matched_filters f;
     frame_log := frame_log f |}.

Definition set_matched_filters (n : Z) (f : frame) : frame :=
  {| housing_filters := housing_filters f;
     university_filters := university_filters f;
     total_filters := total_filters f;
     matched_filters := n;
     frame_log := frame_log f |}.

(** [housing_filters.get(key, default)], [university_filters.get(key, default)]. *)
Definition housing_get {R} (key : string) (default : value) : stmt frame R value :=
  read (fun f => dict_get (housing_filters f) key default).
Definition university_get {R} (key : string) (default : value) : stmt frame R value :=
  read (fun f => dict_get (university_filters f) key default).

(** [housing_filters.pop(key, None)], [university_filters.pop(key, None)]. *)
Definition housing_pop {R} (key : string) : stmt frame R unit :=
  modify (fun f => set_housing_filters (delete key (housing_filters f)) f).
Definition university_pop {R} (key : string) : stmt frame R unit :=
  modify (fun f => set_university_filters (delete key (university_filters f)) f).

(** [total_filters += 1], [matched_filters += 1]. *)
Definition incr_total {R} : stmt frame R unit :=
  modify (fun f => set_total_filters (total_filters f + 1) f).
Definition incr_matched {R} : stmt frame R unit :=
  modify (fun f => set_matched_filters (matched_filters f + 1) f).

(** ** The collection's cursor *)

(** The documents a cursor yields; the iteration itself may raise. *)
Inductive cursor : Type :=
| CursorEnd
| CursorNext (document : dict) (rest : cursor)
| CursorRaise (e : exn).

(** The exception that ends the iteration of a cursor, if one does. *)
Fixpoint cursor_raises (c : cursor) : option exn :=
  match c with
  | CursorEnd => None
  | CursorNext _ rest => cursor_raises rest
  | CursorRaise e => Some e
  end.

(** [{"uid": house_uuid, "probability": probability}]. *)
Record house : Type := House {
  uid : string;
  probability : float
}.

(** ** Plain decimal numerals

    The numerals [int] is instantiated on in the examples: an optional sign
    and a non-empty run of ASCII digits. *)
Definition digit_of (c : Ascii.ascii) : option Z :=
  let n := Z.of_N (Ascii.N_of_ascii c) in
  if (48 <=? n) && (n <=? 57) then Some (n - 48) else None.

Fixpoint digits_value (s : string) (acc : Z) : option Z :=
  match s with
  | EmptyString => Some acc
  | String c rest =>
      match digit_of c with
      | Some d => digits_value rest (10 * acc + d)
      | None => None
      end
  end.

Definition unsigned_decimal (s : string) : option Z :=
  match s with
  | EmptyString => None
  | _ => digits_value s 0
  end.

Definition plain_decimal (s : string) : option Z :=
  match s with
  | String "-"%char rest => option_map Z.opp (unsigned_decimal rest)
  | String "+"%char rest => unsigned_decimal rest
  | _ => unsigned_decimal s
  end.

(** ** Concrete instances for the examples *)

Definition hex_digit_of (c : Ascii.ascii) : option Z :=
  let n := Z.of_N (Ascii.N_of_ascii c) in
  if (48 <=? n) && (n <=? 57) then Some (n - 48)
  else if (97 <=? n) && (n <=? 102) then Some (n - 87)
  else if (65 <=? n) && (n <=? 70) then Some (n - 55)
  else None.

(** The bytes written by a run of pairs of hexadecimal digits. *)
Fixpoint bytes_of_hex (s : string) : option string :=
  match s with
  | EmptyString => Some EmptyString
  | String hi (String lo rest) =>
      match hex_digit_of hi, hex_digit_of lo, bytes_of_hex rest with
      | Some h, Some l, Some bytes =>
          Some (String (Ascii.ascii_of_N (Z.to_N (16 * h + l))) bytes)
      | _, _, _ => None
      end
  | String _ EmptyString => None
  end.

(** An instance of [uuid_of_str]: thirty-two hexadecimal digits, hyphens
    dropped wherever they stand (as [uuid.UUID] does), nothing else allowed. *)
Definition uuid_of_hex (uuid_str : string) : option string :=
  let hex := str_remove "-" uuid_str in
  if (String.length hex =? 32)%nat then bytes_of_hex hex else None.

Definition hex_char (n : Z) : Ascii.ascii :=
  Ascii.ascii_of_N (Z.to_N (if n <? 10 then 48 + n else 87 + n)).

Fixpoint hex_of_bytes (b : string) : string :=
  match b with
  | EmptyString => EmptyString
  | String c rest =>
      let n := Z.of_N (Ascii.N_of_ascii c) in
      String (hex_char (n / 16)) (String (hex_char (n mod 16)) (hex_of_bytes rest))
  end.

(** An instance of [uuid_str_of_bytes]: the canonical 8-4-4-4-12 text of
    sixteen bytes; a [ValueError] for another length, a [TypeError] for a
    value without a length or that is no byte sequence. *)
Definition uuid_hex_of_bytes (v : value) : result string :=
  match v with
  | VBytes b =>
      if (String.length b =? 16)%nat then
        let hex := hex_of_bytes b in
        Ok (String.substring 0 8 hex +:+ "-" +:+ String.substring 8 4 hex +:+ "-"
            +:+ String.substring 12 4 hex +:+ "-" +:+ String.substring 16 4 hex
            +:+ "-" +:+ String.substring 20 12 hex)
      else Raise ValueError
  | VStr s =>
      if (String.length s =? 16)%nat then Raise TypeError else Raise ValueError
  | VList l =>
      if (length l =? 16)%nat then Raise TypeError else Raise ValueError
  | VNone | VBool _ | VInt _ => Raise TypeError
  end.

(** ** Example data *)

(** A dictionary with the five fields. *)
Definition attributes (pets gender : value) (occupants : value)
    (smoking drinking : value) : dict :=
  <["animais_estimacao" := pets]>
    (<["preferencia_genero" := gender]>
       (<["numero_maximo_pessoas" := occupants]>
          (<["frequencia_fumo" := smoking]>
             (<["frequencia_bebida" := drinking]> ∅)))).

(** The pair of the worked example: the labels the scorer knows are written
    as the source writes them ("Gosto muito" for "Love it", "Tanto faz" for
    "No preference"). *)
Definition example_candidate : dict :=
  attributes (VStr "Gosto muito") (VStr "Women only") (VInt 2)
    (VStr "Never") (VStr "Never").

Definition example_seeker : dict :=
  attributes (VStr "Tanto faz") (VStr "Tanto faz") (VInt 3)
    (VStr "Never") (VStr "Occasionally").

(** The same pair with every label as the specification spells it. *)
Definition literal_candidate : dict :=
  attributes (VStr "Love it") (VStr "Women only") (VInt 2)
    (VStr "Never") (VStr "Never").

Definition literal_seeker : dict :=
  attributes (VStr "No preference") (VStr "No preference") (VInt 3)
    (VStr "Never") (VStr "Occasionally").

(** A pair that differs in every field but the wildcard. *)
Definition wildcard_candidate : dict :=
  attributes (VStr "") (VStr "Tanto faz") (VInt 5) (VStr "a") (VStr "b").

Definition wildcard_seeker : dict :=
  attributes (VStr "") (VStr "x") (VInt 3) (VStr "c") (VStr "d").

(** A found record without [numero_maximo_pessoas], as [get_filters]
    normalizes it, and a seeker that agrees with it on every other field. *)
Definition no_occupancy_candidate : dict :=
  attributes (VStr "") (VStr "Misto") VNone (VStr "Nunca") (VStr "Nunca").

Definition no_occupancy_seeker : dict :=
  attributes (VStr "") (VStr "Misto") (VInt 3) (VStr "Nunca") (VStr "Nunca").

(** Two sides that agree on every field but the pet tolerance, whose two
    texts hold the label "Alergia" only when written one after the other. *)
Definition split_label_candidate : dict :=
  attributes (VStr "Al") (VStr "Misto") (VInt 2) (VStr "Nunca") (VStr "Nunca").

Definition split_label_seeker : dict :=
  attributes (VStr "ergia") (VStr "Misto") (VInt 2) (VStr "Nunca") (VStr "Nunca").

(** A text that is not the label, and holds it. *)
Definition substring_candidate : dict :=
  attributes (VStr "Sem Alergia") (VStr "Misto") (VInt 2)
    (VStr "Nunca") (VStr "Nunca").

(** A side with the label itself. *)
Definition allergic_candidate : dict :=
  attributes (VStr "Alergia") (VStr "Tanto faz") (VInt 1)
    (VStr "Nunca") (VStr "Nunca").

(** Two sides with the same occupancy, whose pet labels do not meet at the
    junction of the two texts. *)
Definition same_occupancy_a : dict :=
  attributes (VStr "Gosto muito") (VStr "Misto") (VInt 2)
    (VStr "Nunca") (VStr "Sempre").

Definition same_occupancy_b : dict :=
  attributes (VStr "Tenho") (VStr "Tanto faz") (VInt 2)
    (VStr "Nunca") (VStr "Nunca").

(** A collection with two houses and one seeker. *)
Definition house1_id : string := "AAAAAAAAAAAAAAAA".
Definition house2_id : string := "BBBBBBBBBBBBBBBB".
Definition seeker_id : string := "SSSSSSSSSSSSSSSS".

Definition house1_uuid : string := "41414141-4141-4141-4141-414141414141".
Definition house2_uuid : string := "42424242-4242-4242-4242-424242424242".
Definition seeker_uuid : string := "53535353-5353-5353-5353-535353535353".

Definition tagged (tipo : string) (id : string) (d : dict) : dict :=
  <["tipo" := VStr tipo]> (<["idUsuarioMoradia" := VBytes id]> d).

Definition house1_document : dict :=
  tagged "moradia" house1_id
    (attributes (VStr "[Tenho]") (VStr "Misto") (VInt 4)
       (VStr "Sempre") (VStr "Sempre")).

Definition house2_document : dict :=
  tagged "moradia" house2_id
    (attributes (VStr "[Tenho]") (VStr "Misto") (VInt 2)
       (VStr "Nunca") (VStr "Nunca")).

Definition seeker_document : dict :=
  tagged "universitario" seeker_id
    (attributes (VStr "[Tenho]") (VStr "Misto") (VInt 3)
       (VStr "Nunca") (VStr "Nunca")).

Definition example_find_one (t : nat) (binary_uuid : string)
    : result (option dict) :=
  if String.eqb binary_uuid house1_id then Ok (Some house1_document)
  else if String.eqb binary_uuid house2_id then Ok (Some house2_document)
  else if String.eqb binary_uuid seeker_id then Ok (Some seeker_document)
  else Ok None.

(** The projection [{'idUsuarioMoradia': 1, '_id': 0}] of the two houses. *)
Definition example_find_houses (t : nat) : result cursor :=
  Ok (CursorNext {["idUsuarioMoradia" := VBytes house1_id]}
        (CursorNext {["idUsuarioMoradia" := VBytes house2_id]} CursorEnd)).

(** A collection that cannot be reached. *)
Definition failing_find_one (t : nat) (binary_uuid : string)
    : result (option dict) :=
  Raise (OtherException "ServerSelectionTimeoutError").

Definition failing_find_houses (t : nat) : result cursor :=
  Raise (OtherException "ServerSelectionTimeoutError").

Definition start : world := {| clock := 0; log := [] |}.

(** The documents a cursor yields before it ends or raises. *)
Fixpoint cursor_documents (c : cursor) : list dict :=
  match c with
  | CursorEnd => []
  | CursorNext document rest => document :: cursor_documents rest
  | CursorRaise _ => []
  end.

(** The candidate of the worked example with a field the scorer does not
    know. *)
Definition tagged_candidate : dict :=
  <["tipo" := VStr "moradia"]> example_candidate.

(** Two sides whose pet tolerance is a list. *)
Definition list_candidate : dict :=
  attributes (VList [VStr "Gosto muito"; VStr "Tenho"]) (VStr "Misto")
    (VInt 2) (VStr "Nunca") (VStr "Sempre").

Definition list_seeker : dict :=
  attributes (VList [VStr "Tenho"]) (VStr "Tanto faz") (VInt 2)
    (VStr "Nunca") (VStr "Nunca").

(** A gender preference that holds the wildcard as a part. *)
Definition partial_wildcard_candidate : dict :=
  attributes (VStr "") (VStr "Tanto faz, Misto") (VInt 2)
    (VStr "Nunca") (VStr "Nunca").

(** A directory with a document without identifier and a document whose
    identifier has not sixteen bytes, between two houses. *)
Definition mixed_cursor : cursor :=
  CursorNext {["idUsuarioMoradia" := VBytes house1_id]}
    (CursorNext ∅
       (CursorNext {["idUsuarioMoradia" := VBytes "short"]}
          (CursorNext {["idUsuarioMoradia" := VBytes house2_id]} CursorEnd))).

Definition mixed_find_houses (t : nat) : result cursor := Ok mixed_cursor.

(** An instance of [uuid_str_of_bytes] that checks with an assertion that
    a value of sixteen items is a byte sequence. *)
Definition asserting_uuid_hex_of_bytes (v : value) : result string :=
  match v with
  | VStr s =>
      if (String.length s =? 16)%nat
      then Raise (OtherException "AssertionError") else Raise ValueError
  | VList l =>
      if (length l =? 16)%nat
      then Raise (OtherException "AssertionError") else Raise ValueError
  | _ => uuid_hex_of_bytes v
  end.

(** A directory whose second document holds its identifier as a text. *)
Definition text_id_cursor : cursor :=
  CursorNext {["idUsuarioMoradia" := VBytes house1_id]}
    (CursorNext {["idUsuarioMoradia" := VStr "0123456789abcdef"]} CursorEnd).

Definition text_id_find_houses (t : nat) : result cursor := Ok text_id_cursor.

(** ** The engine *)

Section Engine.

(** [int(s)] on a [str] and on a [bytes]: the integer, or [None] for the
    [ValueError] of a text that is no numeral. *)
Variable int_of_str : string -> option Z.
Variable int_of_bytes : string -> option Z.

(** [Binary(uuid.UUID(uuid_str).bytes, subtype=4)]: the sixteen bytes, or
    [None] for the [ValueError] of a badly formed text ([uuid.UUID] raises
    nothing else on a [str]). *)
Variable uuid_of_str : string -> option string.

(** [str(uuid.UUID(bytes=v))]. *)
Variable uuid_str_of_bytes : value -> result string.

(** [collection.find_one({'idUsuarioMoradia': b})] when the clock shows [t]:
    a document, [None], or an exception. *)
Variable find_one : nat -> string -> result (option dict).

(** [collection.find({'tipo': 'moradia'}, ...)] when the clock shows [t]. *)
Variable find_houses : nat -> result cursor.

(** [int(v)]. *)
Definition py_int (v : value) : result Z :=
  match v with
  | VInt z => Ok z
  | VBool b => Ok (Z.b2z b)
  | VStr s =>
      match int_of_str s with
      | Some z => Ok z
      | None => Raise ValueError
      end
  | VBytes b =>
      match int_of_bytes b with
      | Some z => Ok z
      | None => Raise ValueError
      end
  | VNone | VList _ => Raise TypeError
  end.

Definition tick (w : world) : world :=
  {| clock := S (clock w); log := log w |}.

Definition query_find_one {R} (binary_uuid : string)
    : stmt world R (option dict) :=
  fun w =>
    match find_one (clock w) binary_uuid with
    | Ok user => (Value user, tick w)
    | Raise e => (Raised e, tick w)
    end.

Definition query_find_houses {R} : stmt world R cursor :=
  fun w =>
    match find_houses (clock w) with
    | Ok c => (Value c, tick w)
    | Raise e => (Raised e, tick w)
    end.

(** *** [get_filters] *)

Definition fields_to_process : list string :=
  [ "animais_estimacao";
    "preferencia_genero";
    "numero_maximo_pessoas";
    "frequencia_fumo";
    "frequencia_bebida" ].

(** [value.replace('[', '').replace(']', '')] when [value] is a [str]. *)
Definition strip_brackets (v : value) : value :=
  match v with
  | VStr s => VStr (str_remove "]" (str_remove "[" s))
  | _ => v
  end.

Definition get_filters (uuid_str : string) : stmt world dict dict :=
  logger INFO (FetchingFilters uuid_str) ;;
  binary_uuid <-
    try_except
      (match uuid_of_str uuid_str with
       | Some b => logger DEBUG (UuidConverted b) ;; pure b
       | None => raise ValueError
       end)
      is_ValueError
      (fun _ => logger ERROR InvalidUuid ;; return_ ∅) ;;
  user <-
    try_except
      (found <- query_find_one binary_uuid ;;
       match found with
       | Some user =>
           if decide (user = ∅)
           then logger WARNING UserNotFound ;; return_ ∅
           else logger INFO UserFound ;; pure user
       | None => logger WARNING UserNotFound ;; return_ ∅
       end)
      is_Exception
      (fun e => logger ERROR (UserLookupFailed e) ;; return_ ∅) ;;
  filters <-
    for_each fields_to_process (∅ : dict)
      (fun filters field =>
         let v := strip_brackets (dict_get user field VNone) in
         logger DEBUG (FilterExtracted field v) ;;
         pure (<[field := v]> filters)) ;;
  logger INFO FiltersObtained ;;
  return_ filters.

(** *** [calculate_match_percentage] *)

(** The pet-tolerance rule: the veto and the override. *)
Definition pet_rule : stmt frame float unit :=
  h <- housing_get "animais_estimacao" (VList []) ;;
  u <- university_get "animais_estimacao" (VList []) ;;
  animals_intersection <- lift (py_add h u) ;;
  allergy <- lift (py_in "Alergia" animals_intersection) ;;
  if allergy : bool then
    logger INFO AllergyDetected ;;
    return_ float_zero
  else
    love <- lift (py_in "Gosto muito" animals_intersection) ;;
    love_or_adore <-
      (if love : bool then pure true
       else lift (py_in "Não tenho, mas amo" animals_intersection)) ;;
    if love_or_adore : bool then
      incr_total ;;
      incr_matched ;;
      housing_pop "animais_estimacao" ;;
      university_pop "animais_estimacao" ;;
      logger DEBUG PetOverrideApplied
    else pure tt.

(** The gender-preference wildcard. *)
Definition gender_rule : stmt frame float unit :=
  h <- housing_get "preferencia_genero" (VStr "") ;;
  u <- university_get "preferencia_genero" (VStr "") ;;
  let gender_intersection := VList [h; u] in
  wildcard <- lift (py_in "Tanto faz" gender_intersection) ;;
  if wildcard : bool then
    incr_total ;;
    incr_matched ;;
    housing_pop "preferencia_genero" ;;
    university_pop "preferencia_genero" ;;
    logger DEBUG GenderWildcardApplied
  else pure tt.

(** The comparison of the maximum numbers of occupants. *)
Definition occupancy_rule : stmt frame float unit :=
  try_except
    (h <- housing_get "numero_maximo_pessoas" (VInt 0) ;;
     housing_max <- lift (py_int h) ;;
     u <- university_get "numero_maximo_pessoas" (VInt 0) ;;
     university_max <- lift (py_int u) ;;
     if housing_max <=? university_max then
       incr_matched ;;
       logger DEBUG (OccupancyMatched housing_max university_max)
     else pure tt)
    is_ValueError
    (fun ve => logger ERROR (OccupancyConversionError ve)) ;;
  incr_total ;;
  housing_pop "numero_maximo_pessoas" ;;
  university_pop "numero_maximo_pessoas".

Definition other_fields : list string :=
  [ "preferencia_genero";
    "frequencia_fumo";
    "frequencia_bebida" ].

(** One turn of the loop over [other_fields]. *)
Definition compare_field (field : string) : stmt frame float unit :=
  h <- housing_get field VNone ;;
  u <- university_get field VNone ;;
  (if py_eq h u then
     incr_matched ;;
     logger DEBUG (FieldMatches field)
   else pure tt) ;;
  incr_total.

(** The guard against a division by zero, and the percentage. *)
Definition percentage : stmt frame float float :=
  total <- read total_filters ;;
  if total =? 0 then
    logger WARNING TotalIsZero ;;
    return_ float_zero
  else
    matched <- read matched_filters ;;
    let match_percentage := float_times_100 (int_truediv matched total) in
    logger INFO (PercentageComputed match_percentage) ;;
    return_ match_percentage.

(** The body of the [try] block. *)
Definition calculate_match_percentage_try : stmt frame float float :=
  pet_rule ;;
  gender_rule ;;
  occupancy_rule ;;
  for_each other_fields tt (fun _ field => compare_field field) ;;
  percentage.

(** The scorer, run on two dictionaries and the log so far: the score, and
    the frame when it returns (its two dictionaries as the call leaves
    them, its counters, the log). *)
Definition calculate_match_percentage (housing university : dict)
    (log0 : list log_record) : float * frame :=
  let entry :=
    {| housing_filters := housing;
       university_filters := university;
       total_filters := 0;
       matched_filters := 0;
       frame_log := log0 ++ [(INFO, CalculatingMatch)] |} in
  match calculate_match_percentage_try entry with
  | (Value x, f) | (Returned x, f) => (x, f)
  | (Raised e, f) => (float_zero, emit (ERROR, MatchFailed e) f)
  end.

(** *** [get_all_houses] *)

(** The loop over the cursor, which appends to [uuid_list]. *)
Fixpoint for_cursor {R} (c : cursor) (uuid_list : list string)
    (body : list string -> dict -> stmt world R (list string))
    : stmt world R (list string) :=
  match c with
  | CursorEnd => pure uuid_list
  | CursorNext document rest =>
      uuid_list' <- body uuid_list document ;;
      for_cursor rest uuid_list' body
  | CursorRaise e => raise e
  end.

Definition get_all_houses : stmt world (list string) (list string) :=
  logger INFO FetchingHouses ;;
  try_except
    (c <- query_find_houses ;;
     logger DEBUG QueryDone ;;
     uuid_list <-
       for_cursor c []
         (fun uuid_list document =>
            let binary_uuid := dict_get document "idUsuarioMoradia" VNone in
            if py_truthy binary_uuid then
              try_except
                (uuid_str <- lift (uuid_str_of_bytes binary_uuid) ;;
                 logger DEBUG (UuidAdded uuid_str) ;;
                 pure (uuid_list ++ [uuid_str])%list)
                is_ValueError_or_TypeError
                (fun e =>
                   logger ERROR (UuidConversionError e) ;;
                   pure uuid_list)
            else pure uuid_list) ;;
     logger INFO (HousesFound (length uuid_list)) ;;
     return_ uuid_list)
    is_Exception
    (fun e => logger ERROR (HousesLookupFailed e) ;; return_ []).

(** *** [get_all_probas] *)

(** The call of the scorer from the ranker: it logs to the process log. *)
Definition call_calculate_match_percentage {R}
    (housing university : dict) : stmt world R float :=
  fun w =>
    let '(p, f) := calculate_match_percentage housing university (log w) in
    (Value p, {| clock := clock w; log := frame_log f |}).

Definition get_all_probas (university_uuid : string)
    : stmt world (list house) (list house) :=
  logger INFO (StartingProbas university_uuid) ;;
  try_except
    (houses <- call get_all_houses ;;
     houses_to_return <-
       for_each houses []
         (fun houses_to_return house_uuid =>
            housing <- call (get_filters house_uuid) ;;
            university <- call (get_filters university_uuid) ;;
            p <- call_calculate_match_percentage housing university ;;
            logger DEBUG (HouseProbability house_uuid p) ;;
            let house := {| uid := house_uuid; probability := p |} in
            logger INFO (HouseAdded house_uuid p) ;;
            pure (houses_to_return ++ [house])%list) ;;
     logger INFO HousesSorted ;;
     return_ houses_to_return)
    is_Exception
    (fun e => logger ERROR (ProbasFailed e) ;; return_ []).

(** ** Predicates of the properties *)

(** The counters of a frame are in order, and [total_filters] is at most
    [k]. *)
Definition counters_ok (k : Z) (f : frame) : Prop :=
  0 <= matched_filters f <= total_filters f /\ total_filters f <= k.

(** [x] is a number of the closed interval from [0.0] to [100.0]. *)
Definition in_range (x : float) : Prop :=
  float_leb float_zero x = true /\ float_leb x (float_of_int 100) = true.

(** A statement that takes counters in order below [k] to counters in
    order below [k'], whatever its outcome, and returns only numbers in
    range. *)
Definition keeps {A} (k k' : Z) (m : stmt frame float A) : Prop :=
  forall f, counters_ok k f ->
    counters_ok k' (snd (m f)) /\
    match fst (m f) with
    | Returned x => in_range x
    | _ => True
    end.

(** The three labels the pet rule looks for, and its test of one label on
    the values of the two sides, taken in the order given. *)
Definition pet_labels : list string :=
  [ "Alergia"; "Gosto muito"; "Não tenho, mas amo" ].

Definition pet_test (label : string) (a b : value) : result bool :=
  match py_add a b with
  | Ok animals_intersection => py_in label animals_intersection
  | Raise e => Raise e
  end.

(** Two frames of two calls with the roles of the dictionaries swapped,
    at the same point of the scorer, with occupancy values that are
    equal. *)
Definition mirrored (f g : frame) : Prop :=
  housing_filters f = university_filters g /\
  university_filters f = housing_filters g /\
  total_filters f = total_filters g /\
  matched_filters f = matched_filters g /\
  py_eq (dict_get (housing_filters f) "numero_maximo_pessoas" (VInt 0))
        (dict_get (university_filters f) "numero_maximo_pessoas" (VInt 0))
    = true.

(** Two runs that end the same way, in mirrored frames. *)
Definition same_outcome {A} (r1 r2 : outcome float A * frame) : Prop :=
  match r1, r2 with
  | (Value a, f), (Value b, g) => a = b /\ mirrored f g
  | (Returned x, f), (Returned y, g) => x = y
  | (Raised _, _), (Raised _, _) => True
  | _, _ => False
  end.

(** The fields the scorer removes from its dictionaries. *)
Definition removable_fields : list string :=
  [ "animais_estimacao"; "preferencia_genero"; "numero_maximo_pessoas" ].

(** [d'] is [d] without some of the removable fields. *)
Definition removes_only (d d' : dict) : Prop :=
  forall key, d' !! key = d !! key \/
              (d' !! key = None /\ key ∈ removable_fields).

Definition frame_removes_only (f f' : frame) : Prop :=
  removes_only (housing_filters f) (housing_filters f') /\
  removes_only (university_filters f) (university_filters f').

(** A relation between the frame a statement starts in and the frame it
    ends in, whatever its outcome. *)
Definition always {A} (P : frame -> frame -> Prop)
    (m : stmt frame float A) : Prop :=
  forall f, P f (snd (m f)).

(** Two dictionaries with the same five recognized fields. *)
Definition same_fields (d d' : dict) : Prop :=
  Forall (fun field => d !! field = d' !! field) fields_to_process.

(** Two frames at the same point of the scorer, with the same recognized
    fields on each side and the same counters. *)
Definition alike (f g : frame) : Prop :=
  same_fields (housing_filters f) (housing_filters g) /\
  same_fields (university_filters f) (university_filters g) /\
  total_filters f = total_filters g /\
  matched_filters f = matched_filters g.

(** Two runs that end the same way, in frames that are alike. *)
Definition same_result {A} (r1 r2 : outcome float A * frame) : Prop :=
  match r1, r2 with
  | (Value a, f), (Value b, g) => a = b /\ alike f g
  | (Returned x, f), (Returned y, g) => x = y /\ alike f g
  | (Raised e, f), (Raised e', g) => e = e' /\ alike f g
  | _, _ => False
  end.

(** The identifier the directory lists for a document, if it lists one: none
    for a document whose [idUsuarioMoradia] is missing or false, and none
    for one whose conversion raises. *)
Definition listed_uuid (document : dict) : option string :=
  let binary_uuid := dict_get document "idUsuarioMoradia" VNone in
  if py_truthy binary_uuid then
    match uuid_str_of_bytes binary_uuid with
    | Ok uuid_str => Some uuid_str
    | Raise _ => None
    end
  else None.

(** A document whose identifier raises, when it is converted, an exception
    that is neither a [ValueError] nor a [TypeError]. *)
Definition conversion_aborts (document : dict) : Prop :=
  let binary_uuid := dict_get document "idUsuarioMoradia" VNone in
  py_truthy binary_uuid = true /\
  exists e, uuid_str_of_bytes binary_uuid = Raise e /\
            is_ValueError_or_TypeError e = false.

(** The dictionary the normalizer returns for an identifier when the clock
    shows [t]. *)
Definition filters_at (t : nat) (uuid_str : string) : dict :=
  match fst (get_filters uuid_str {| clock := t; log := [] |}) with
  | Value d | Returned d => d
  | Raised _ => ∅
  end.

(** A result of the ranker for a house: its identifier, and the score of
    the normalized house against the normalized seeker. *)
Definition ranks (university_uuid : string) (house_uuid : string)
    (r : house) : Prop :=
  uid r = house_uuid /\
  exists t1 t2 l,
    probability r
    = fst (calculate_match_percentage (filters_at t1 house_uuid)
             (filters_at t2 university_uuid) l).

(** ** Strings and values *)

Lemma prefix_app_l (p s t : string) :
  String.prefix p s = true -> String.prefix p (s +:+ t) = true.
Proof.
  revert s; induction p as [|c p IH]; intros [|d s]; simpl; try done.
  - by destruct t.
  - destruct (ascii_dec c d); [apply IH | done].
Qed.

Lemma str_contains_app_l (needle s t : string) :
  str_contains needle s = true -> str_contains needle (s +:+ t) = true.
Proof.
  induction s as [|c s IH]; simpl.
  - rewrite orb_false_r. intros H.
    destruct needle; [by destruct t | done].
  - intros [H|H]%orb_true_iff; apply orb_true_iff.
    + left. by apply (prefix_app_l _ (String c s)).
    + right. by apply IH.
Qed.

Lemma str_contains_app_r (needle s t : string) :
  str_contains needle t = true -> str_contains needle (s +:+ t) = true.
Proof.
  intros H. induction s as [|c s IH]; simpl; [done|].
  rewrite IH. apply orb_true_r.
Qed.

(** A label found in the text of one side is found in the two texts put
    one after the other, and likewise for two lists. *)
Lemma py_in_add_l (label : string) (a b c : value) :
  py_in label a = Ok true -> py_add a b = Ok c -> py_in label c = Ok true.
Proof.
  destruct a, b; simpl; try done; intros Ha [= <-]; simpl.
  - injection Ha as Ha. by rewrite str_contains_app_l.
  - injection Ha as Ha. by rewrite existsb_app, Ha.
Qed.

Lemma py_in_add_r (label : string) (a b c : value) :
  py_in label b = Ok true -> py_add a b = Ok c -> py_in label c = Ok true.
Proof.
  destruct a, b; simpl; try done; intros Hb [= <-]; simpl.
  - injection Hb as Hb. by rewrite str_contains_app_r.
  - injection Hb as Hb. by rewrite existsb_app, Hb, orb_true_r.
Qed.

Lemma py_add_raises (a b : value) (e : exn) :
  py_add a b = Raise e -> e = TypeError.
Proof. destruct a, b; simpl; congruence. Qed.

(** ** Running statements *)

Ltac unfold_stmt :=
  cbv beta iota zeta delta
    [bind pure return_ raise read modify logger lift try_except
     housing_get university_get housing_pop university_pop
     incr_total incr_matched emit frame_logging
     set_housing_filters set_university_filters
     set_total_filters set_matched_filters
     housing_filters university_filters total_filters matched_filters
     frame_log fst snd].

(** One step: case analysis on an innermost test the run is stuck on. *)
Ltac case_stmt :=
  match goal with
  | |- context [match ?x with _ => _ end] =>
      lazymatch x with
      | context [match _ with _ => _ end] => fail
      | _ => destruct x eqn:?
      end
  end.

Ltac run_stmt := unfold_stmt; repeat (case_stmt; unfold_stmt).

(** C1: if the label "Alergia" is found in the pet-tolerance value of either
    side, the scorer returns exactly 0.0 whatever the other fields hold, and
    no further rule runs: the two dictionaries are as they were given, both
    counters are 0, and the log holds one record after the opening one (the
    veto, or the [TypeError] of adding two values of different kinds, which
    is raised before any rule has counted). *)
Theorem allergy_veto (housing university : dict) (log0 : list log_record) :
  py_in "Alergia" (dict_get housing "animais_estimacao" (VList [])) = Ok true \/
  py_in "Alergia" (dict_get university "animais_estimacao" (VList [])) = Ok true ->
  exists last,
    calculate_match_percentage housing university log0 =
      (float_zero,
       {| housing_filters := housing;
          university_filters := university;
          total_filters := 0;
          matched_filters := 0;
          frame_log := (log0 ++ [(INFO, CalculatingMatch)]) ++ [last] |}) /\
    (last = (INFO, AllergyDetected) \/ last = (ERROR, MatchFailed TypeError)).
Proof.
  intros H.
  unfold calculate_match_percentage, calculate_match_percentage_try, pet_rule.
  unfold_stmt.
  destruct (py_add _ _) as [c|e] eqn:Hadd.
  - assert (py_in "Alergia" c = Ok true) as ->.
    { destruct H; eauto using py_in_add_l, py_in_add_r. }
    eexists; split; [reflexivity | by left].
  - apply py_add_raises in Hadd as ->.
    eexists; split; [reflexivity | by right].
Qed.

(** ** The counters and the range of the score *)

Lemma counters_ok_mono (k k' : Z) (f : frame) :
  k <= k' -> counters_ok k f -> counters_ok k' f.
Proof. unfold counters_ok. lia. Qed.

Lemma in_range_zero : in_range float_zero.
Proof. split; reflexivity. Qed.

Lemma keeps_bind {A B} (k k' k'' : Z) (m : stmt frame float A)
    (c : A -> stmt frame float B) :
  k' <= k'' -> keeps k k' m -> (forall a, keeps k' k'' (c a)) ->
  keeps k k'' (bind m c).
Proof.
  intros Hle Hm Hc f Hf. destruct (Hm f Hf) as [Hok Hret].
  unfold bind. destruct (m f) as [[a|r|e] f']; simpl in *.
  - by apply Hc.
  - split; [by eapply counters_ok_mono | done].
  - split; [by eapply counters_ok_mono | done].
Qed.

Ltac close_counters :=
  unfold counters_ok in *; simpl in *;
  split; [lia | first [ exact I | exact in_range_zero ] ].

Lemma keeps_pet_rule (k k' : Z) : k + 1 <= k' -> keeps k k' pet_rule.
Proof.
  intros Hk [h u t m l] Hf. unfold pet_rule.
  run_stmt; close_counters.
Qed.

Lemma keeps_gender_rule (k k' : Z) : k + 1 <= k' -> keeps k k' gender_rule.
Proof.
  intros Hk [h u t m l] Hf. unfold gender_rule.
  run_stmt; close_counters.
Qed.

Lemma keeps_occupancy_rule (k k' : Z) : k + 1 <= k' -> keeps k k' occupancy_rule.
Proof.
  intros Hk [h u t m l] Hf. unfold occupancy_rule.
  run_stmt; close_counters.
Qed.

Lemma keeps_compare_field (k k' : Z) (field : string) :
  k + 1 <= k' -> keeps k k' (compare_field field).
Proof.
  intros Hk [h u t m l] Hf. unfold compare_field.
  run_stmt; close_counters.
Qed.

Lemma keeps_other_fields (k : Z) :
  keeps k (k + 3)
    (for_each other_fields tt (fun _ field => compare_field field)).
Proof.
  unfold other_fields, for_each.
  apply (keeps_bind k (k + 1)); [lia | apply keeps_compare_field; lia |].
  intros _.
  apply (keeps_bind (k + 1) (k + 2)); [lia | apply keeps_compare_field; lia |].
  intros _.
  apply (keeps_bind (k + 2) (k + 3)); [lia | apply keeps_compare_field; lia |].
  intros a f Hf. by split.
Qed.

(** The percentage of [matched] out of [total], for the counters the
    scorer can reach. *)
Lemma percentage_in_range (matched total : Z) :
  0 <= matched <= total -> 1 <= total <= 6 ->
  in_range (float_times_100 (int_truediv matched total)).
Proof.
  intros Hm Ht.
  assert (Hcases : total = 1 \/ total = 2 \/ total = 3 \/ total = 4 \/
                   total = 5 \/ total = 6) by lia.
  assert (Hm' : matched = 0 \/ matched = 1 \/ matched = 2 \/ matched = 3 \/
                matched = 4 \/ matched = 5 \/ matched = 6) by lia.
  repeat (destruct Hcases as [->|Hcases]);
    try subst total;
    repeat (destruct Hm' as [->|Hm']); try subst matched;
    try lia; split; vm_compute; reflexivity.
Qed.

Lemma keeps_percentage : keeps 6 6 percentage.
Proof.
  intros [h u t m l] Hf. unfold percentage. unfold_stmt.
  destruct (t =? 0) eqn:Hz; simpl.
  - split; [done | apply in_range_zero].
  - split; [done|]. apply Z.eqb_neq in Hz.
    destruct Hf as [? ?]. simpl in *. apply percentage_in_range; lia.
Qed.

Lemma keeps_calculate_match_percentage_try :
  keeps 0 6 calculate_match_percentage_try.
Proof.
  unfold calculate_match_percentage_try.
  apply (keeps_bind 0 1); [lia | apply keeps_pet_rule; lia |]. intros _.
  apply (keeps_bind 1 2); [lia | apply keeps_gender_rule; lia |]. intros _.
  apply (keeps_bind 2 3); [lia | apply keeps_occupancy_rule; lia |]. intros _.
  apply (keeps_bind 3 6); [lia | apply (keeps_other_fields 3) |]. intros _.
  apply keeps_percentage.
Qed.

(** [percentage] leaves the function: it never falls through. *)
Lemma percentage_returns (f : frame) :
  exists x f', percentage f = (Returned x, f').
Proof.
  destruct f as [h u t m l]. unfold percentage. run_stmt; eauto.
Qed.

Lemma bind_value_inv {S R A B} (m : stmt S R A) (c : A -> stmt S R B)
    (s s' : S) (b : B) :
  bind m c s = (Value b, s') ->
  exists a s1, m s = (Value a, s1) /\ c a s1 = (Value b, s').
Proof.
  unfold bind. destruct (m s) as [[a|r|e] s1]; [eauto | done | done].
Qed.

Lemma calculate_match_percentage_try_leaves (f f' : frame) (x : float) :
  calculate_match_percentage_try f <> (Value x, f').
Proof.
  unfold calculate_match_percentage_try. intros H.
  do 4 (apply bind_value_inv in H as (_ & ? & _ & H)).
  match type of H with
  | percentage ?g = _ => destruct (percentage_returns g) as (? & ? & Hp)
  end.
  congruence.
Qed.

(** C6: for all dictionaries the score is a float of the closed interval
    from 0.0 to 100.0, and [matched_filters] does not exceed [total_filters]
    when the scorer returns, in particular where the percentage is
    computed. *)
Theorem score_in_range (housing university : dict) (log0 : list log_record) :
  let '(score, f) := calculate_match_percentage housing university log0 in
  float_leb float_zero score = true /\
  float_leb score (float_of_int 100) = true /\
  0 <= matched_filters f <= total_filters f.
Proof.
  unfold calculate_match_percentage.
  set (entry := {| housing_filters := housing |}).
  assert (Hentry : counters_ok 0 entry) by (unfold counters_ok; simpl; lia).
  destruct (keeps_calculate_match_percentage_try entry Hentry) as [Hok Hret].
  destruct (calculate_match_percentage_try entry) as [[x|x|e] f] eqn:Hrun;
    cbn [fst snd] in Hok, Hret.
  - by apply calculate_match_percentage_try_leaves in Hrun.
  - destruct Hret as [Hlo Hhi], Hok as [Hcount _]. done.
  - destruct Hok as [Hcount _], f. done.
Qed.

(** ** Equality of values *)

Lemma value_list_ind (P : value -> Prop) :
  P VNone ->
  (forall b, P (VBool b)) ->
  (forall z, P (VInt z)) ->
  (forall s, P (VStr s)) ->
  (forall b, P (VBytes b)) ->
  (forall l, Forall P l -> P (VList l)) ->
  forall v, P v.
Proof.
  intros HNone HBool HInt HStr HBytes HList.
  fix IH 1. intros [ |b|z|s|b|l].
  - exact HNone.
  - apply HBool.
  - apply HInt.
  - apply HStr.
  - apply HBytes.
  - apply HList. induction l as [|v l IHl]; constructor; [apply IH | exact IHl].
Qed.

Lemma py_eq_sym (a b : value) : py_eq a b = py_eq b a.
Proof.
  revert b. induction a as [ |x|x|x|x|l IH] using value_list_ind;
    intros [ |y|y|y|y|l']; simpl; try done.
  - by destruct x, y.
  - apply Z.eqb_sym.
  - apply Z.eqb_sym.
  - apply Z.eqb_sym.
  - apply String.eqb_sym.
  - apply String.eqb_sym.
  - revert l'. induction IH as [|v l Hv _ IHl]; intros [|w l']; try done.
    by rewrite Hv, IHl.
Qed.

(** Two values that are equal convert to the same integer, or fail to
    convert in the same way. *)
Lemma py_eq_py_int (a b : value) :
  py_eq a b = true -> py_int a = py_int b.
Proof.
  destruct a as [ |x|x|x|x|l], b as [ |y|y|y|y|l']; simpl; try done.
  - by intros ->%Bool.eqb_prop.
  - by intros ->%Z.eqb_eq.
  - by intros ->%Z.eqb_eq.
  - by intros ->%Z.eqb_eq.
  - by intros ->%String.eqb_eq.
  - by intros ->%String.eqb_eq.
Qed.

Lemma dict_get_delete_ne (d : dict) (k k' : string) (default : value) :
  k <> k' -> dict_get (delete k d) k' default = dict_get d k' default.
Proof. intros Hne. unfold dict_get. by rewrite lookup_delete_ne. Qed.

Lemma dict_get_delete_eq (d : dict) (k : string) (default : value) :
  dict_get (delete k d) k default = default.
Proof. unfold dict_get. by rewrite lookup_delete_eq. Qed.

(** ** The two orders of a pair *)

Lemma same_outcome_bind {A B} (m1 m2 : stmt frame float A)
    (c1 c2 : A -> stmt frame float B) (f g : frame) :
  same_outcome (m1 f) (m2 g) ->
  (forall a f' g', mirrored f' g' -> same_outcome (c1 a f') (c2 a g')) ->
  same_outcome (bind m1 c1 f) (bind m2 c2 g).
Proof.
  intros Hm Hc. unfold bind.
  destruct (m1 f) as [[a|x|e] f'], (m2 g) as [[b|y|e'] g']; simpl in *;
    try done.
  destruct Hm as [-> Hm]. by apply Hc.
Qed.

Ltac close_mirrored :=
  unfold same_outcome, mirrored;
  cbn [housing_filters university_filters total_filters matched_filters];
  rewrite ?dict_get_delete_eq, ?dict_get_delete_ne by done;
  try done; repeat split; done.

Lemma pet_rule_mirrored (f g : frame) :
  mirrored f g ->
  Forall (fun label =>
            pet_test label
              (dict_get (housing_filters f) "animais_estimacao" (VList []))
              (dict_get (university_filters f) "animais_estimacao" (VList []))
            = pet_test label
                (dict_get (university_filters f) "animais_estimacao" (VList []))
                (dict_get (housing_filters f) "animais_estimacao" (VList [])))
         pet_labels ->
  same_outcome (pet_rule f) (pet_rule g).
Proof.
  destruct f as [h u t m l], g as [h' u' t' m' l'].
  intros (Hh & Hu & Ht & Hm & Hocc) Hpets; simpl in *; subst.
  apply Forall_cons in Hpets as [Hallergy Hpets].
  apply Forall_cons in Hpets as [Hlove Hpets].
  apply Forall_cons in Hpets as [Hadore _].
  unfold pet_test in *. unfold pet_rule. unfold_stmt.
  destruct (py_add (dict_get h' _ _) (dict_get u' _ _)) as [c|e],
           (py_add (dict_get u' _ _) (dict_get h' _ _)) as [c'|e'];
    unfold_stmt.
  - rewrite Hallergy, Hlove, Hadore. run_stmt; close_mirrored.
  - rewrite <- Hallergy. run_stmt; close_mirrored.
  - rewrite Hallergy. run_stmt; close_mirrored.
  - done.
Qed.

Lemma gender_rule_mirrored (f g : frame) :
  mirrored f g -> same_outcome (gender_rule f) (gender_rule g).
Proof.
  destruct f as [h u t m l], g as [h' u' t' m' l'].
  intros (Hh & Hu & Ht & Hm & Hocc); simpl in *; subst.
  unfold gender_rule, py_in, existsb, orb. run_stmt; close_mirrored.
Qed.

Lemma occupancy_rule_mirrored (f g : frame) :
  mirrored f g -> same_outcome (occupancy_rule f) (occupancy_rule g).
Proof.
  destruct f as [h u t m l], g as [h' u' t' m' l'].
  intros (Hh & Hu & Ht & Hm & Hocc); simpl in *; subst.
  apply py_eq_py_int in Hocc.
  destruct (py_int (dict_get h' _ _)) as [zh|eh] eqn:Eh,
           (py_int (dict_get u' _ _)) as [zu|eu] eqn:Eu; simplify_eq.
  - unfold occupancy_rule.
    repeat (unfold_stmt; first [rewrite Eh | rewrite Eu | rewrite Z.leb_refl]).
    unfold_stmt. close_mirrored.
  - unfold occupancy_rule.
    repeat (unfold_stmt; first [rewrite Eh | rewrite Eu]).
    run_stmt; close_mirrored.
Qed.

Lemma compare_field_mirrored (field : string) (f g : frame) :
  mirrored f g ->
  same_outcome (compare_field field f) (compare_field field g).
Proof.
  destruct f as [h u t m l], g as [h' u' t' m' l'].
  intros (Hh & Hu & Ht & Hm & Hocc); simpl in *; subst.
  unfold compare_field. unfold_stmt.
  rewrite (py_eq_sym (dict_get u' field VNone)).
  run_stmt; close_mirrored.
Qed.

Lemma percentage_mirrored (f g : frame) :
  mirrored f g -> same_outcome (percentage f) (percentage g).
Proof.
  destruct f as [h u t m l], g as [h' u' t' m' l'].
  intros (Hh & Hu & Ht & Hm & Hocc); simpl in *; subst.
  unfold percentage. run_stmt; close_mirrored.
Qed.

Lemma calculate_match_percentage_try_mirrored (f g : frame) :
  same_outcome (pet_rule f) (pet_rule g) ->
  same_outcome (calculate_match_percentage_try f)
               (calculate_match_percentage_try g).
Proof.
  intros Hpet. unfold calculate_match_percentage_try, other_fields, for_each.
  apply same_outcome_bind; [done|]. intros _ f1 g1 H1.
  apply same_outcome_bind; [by apply gender_rule_mirrored|]. intros _ f2 g2 H2.
  apply same_outcome_bind; [by apply occupancy_rule_mirrored|].
  intros _ f3 g3 H3.
  apply same_outcome_bind.
  - apply same_outcome_bind; [by apply compare_field_mirrored|].
    intros _ f4 g4 H4.
    apply same_outcome_bind; [by apply compare_field_mirrored|].
    intros _ f5 g5 H5.
    apply same_outcome_bind; [by apply compare_field_mirrored|].
    intros a f6 g6 H6. by split.
  - intros _ f7 g7 H7. by apply percentage_mirrored.
Qed.

(** With equal occupancy values, swapping the roles leaves the score
    unchanged as soon as each pet label is found in the values of the two
    sides taken in one order exactly when it is found in them taken in the
    other order: the occupancy and the order of the addition in the pet rule
    are all that tell the two roles apart. *)
Lemma score_symmetric (A B : dict) (log0 log1 : list log_record) :
  py_eq (dict_get A "numero_maximo_pessoas" (VInt 0))
        (dict_get B "numero_maximo_pessoas" (VInt 0)) = true ->
  Forall (fun label =>
            pet_test label (dict_get A "animais_estimacao" (VList []))
                           (dict_get B "animais_estimacao" (VList []))
            = pet_test label (dict_get B "animais_estimacao" (VList []))
                             (dict_get A "animais_estimacao" (VList [])))
         pet_labels ->
  fst (calculate_match_percentage A B log0)
  = fst (calculate_match_percentage B A log1).
Proof.
  intros Hocc Hpets. unfold calculate_match_percentage.
  set (f0 := {| housing_filters := A |}).
  set (g0 := {| housing_filters := B |}).
  assert (Hsim : same_outcome (calculate_match_percentage_try f0)
                              (calculate_match_percentage_try g0)).
  { apply calculate_match_percentage_try_mirrored.
    apply pet_rule_mirrored; [by repeat split | done]. }
  destruct (calculate_match_percentage_try f0) as [[x|x|e] f],
           (calculate_match_percentage_try g0) as [[y|y|e'] g];
    cbn [same_outcome fst] in *; try done.
  by destruct Hsim.
Qed.

(** On two lists, the representation the defaults of the pet rule assume,
    a label is in the two lists put together exactly when it is in either
    of them, whatever the order: with equal occupancy values the score is
    the same in both roles. *)
Lemma score_symmetric_on_lists (A B : dict) (la lb : list value)
    (log0 log1 : list log_record) :
  dict_get A "animais_estimacao" (VList []) = VList la ->
  dict_get B "animais_estimacao" (VList []) = VList lb ->
  py_eq (dict_get A "numero_maximo_pessoas" (VInt 0))
        (dict_get B "numero_maximo_pessoas" (VInt 0)) = true ->
  fst (calculate_match_percentage A B log0)
  = fst (calculate_match_percentage B A log1).
Proof.
  intros Ha Hb Hocc. apply score_symmetric; [done|].
  rewrite Ha, Hb. unfold pet_test, py_add, py_in.
  apply Forall_forall. intros label _. f_equal.
  rewrite !existsb_app. apply orb_comm.
Qed.

(** ** The normalizer *)

Ltac unfold_world :=
  cbv beta iota zeta delta
    [bind pure return_ raise read modify logger lift try_except call
     emit world_logging tick query_find_one query_find_houses
     is_ValueError is_Exception for_each fields_to_process
     clock log fst snd].

(** C4, as amended: for an identifier that is no UUID, and for one the
    collection has no document for, the normalizer returns the empty
    dictionary: none of the five keys is present. *)
Theorem get_filters_no_data (uuid_str : string) (w : world) :
  uuid_of_str uuid_str = None \/
  (exists binary_uuid, uuid_of_str uuid_str = Some binary_uuid /\
                       find_one (clock w) binary_uuid = Ok None) ->
  exists d w',
    get_filters uuid_str w = (Returned d, w') /\
    d = ∅ /\
    Forall (fun field => d !! field = None) fields_to_process.
Proof.
  destruct w as [t l]. cbn [clock].
  intros [Hbad | (b & Hgood & Hnone)]; unfold get_filters; unfold_world.
  - rewrite Hbad. unfold_world.
    do 2 eexists. split; [reflexivity|]. split; [done|].
    by repeat constructor.
  - rewrite Hgood. unfold_world. rewrite Hnone. unfold_world.
    do 2 eexists. split; [reflexivity|]. split; [done|].
    by repeat constructor.
Qed.

(** A failed query and an empty document give the empty dictionary too. *)
Lemma get_filters_lookup_failed (uuid_str binary_uuid : string) (w : world)
    (e : exn) :
  uuid_of_str uuid_str = Some binary_uuid ->
  find_one (clock w) binary_uuid = Raise e ->
  exists w', get_filters uuid_str w = (Returned ∅, w').
Proof.
  destruct w as [t l]. cbn [clock]. intros Hgood Hfail.
  unfold get_filters; unfold_world.
  rewrite Hgood. unfold_world. rewrite Hfail. unfold_world. eauto.
Qed.

(** For a document that is found, the five keys are all present; a field
    the document lacks is [None]. *)
Lemma get_filters_found (uuid_str binary_uuid : string) (w : world)
    (user : dict) :
  uuid_of_str uuid_str = Some binary_uuid ->
  find_one (clock w) binary_uuid = Ok (Some user) ->
  user <> ∅ ->
  exists d w',
    get_filters uuid_str w = (Returned d, w') /\
    Forall (fun field =>
              d !! field = Some (strip_brackets (dict_get user field VNone)))
           fields_to_process.
Proof.
  destruct w as [t l]. cbn [clock]. intros Hgood Hfound Hne.
  unfold get_filters; unfold_world.
  rewrite Hgood. unfold_world. rewrite Hfound. unfold_world.
  destruct (decide (user = ∅)) as [|_]; [done|]. unfold_world.
  do 2 eexists. split; [reflexivity|].
  repeat constructor; by simplify_map_eq.
Qed.

(** The normalizer always returns: it does not raise. *)
Lemma get_filters_returns {R} (uuid_str : string) (w : world) :
  exists d w', call (R' := R) (get_filters uuid_str) w = (Value d, w').
Proof.
  destruct w as [t l]. unfold get_filters; unfold_world.
  destruct (uuid_of_str uuid_str) as [b|]; unfold_world; [|eauto].
  destruct (find_one t b) as [[user|]|e]; unfold_world; [|eauto|eauto].
  destruct (decide (user = ∅)); unfold_world; eauto.
Qed.

(** ** The directory and the ranker *)

Lemma bind_value {S R A B} (m : stmt S R A) (c : A -> stmt S R B)
    (s s' : S) (a : A) :
  m s = (Value a, s') -> bind m c s = c a s'.
Proof. unfold bind. by intros ->. Qed.

(** A loop whose body appends one element per turn appends one element
    per item, in the order of the items. *)
Lemma for_each_appends {S R A B} (key : B -> A)
    (body : list B -> A -> stmt S R (list B)) :
  (forall acc x s, exists r s',
      body acc x s = (Value (acc ++ [r])%list, s') /\ key r = x) ->
  forall l acc s, exists rs s',
      for_each l acc body s = (Value (acc ++ rs)%list, s') /\ map key rs = l.
Proof.
  intros Hbody. induction l as [|x l IH]; intros acc s; simpl.
  - exists [], s. by rewrite app_nil_r.
  - destruct (Hbody acc x s) as (r & s1 & Hrun & Hkey).
    destruct (IH (acc ++ [r])%list s1) as (rs & s2 & Hrest & Hmap).
    exists (r :: rs), s2. rewrite (bind_value _ _ _ _ _ Hrun), Hrest.
    split; [by rewrite <- app_assoc | by rewrite <- Hkey, <- Hmap].
Qed.

(** A cursor that raises ends the loop over it with an exception, if the
    body of the loop does not leave the function. *)
Lemma for_cursor_raises {R} (body : list string -> dict -> stmt world R (list string))
    (c : cursor) (e : exn) :
  (forall acc d w r w', body acc d w <> (Returned r, w')) ->
  cursor_raises c = Some e ->
  forall acc w, exists e' w', for_cursor c acc body w = (Raised e', w').
Proof.
  intros Hbody. induction c as [|d rest IH|e0]; simpl; intros Hc acc w.
  - done.
  - unfold bind. destruct (body acc d w) as [[acc'|r|e'] w1] eqn:Hrun.
    + by apply IH.
    + by apply Hbody in Hrun.
    + eauto.
  - unfold raise. eauto.
Qed.

(** The directory always returns a list: it does not raise. *)
Lemma get_all_houses_returns {R} (w : world) :
  exists houses w', call (R' := R) get_all_houses w = (Value houses, w').
Proof.
  destruct w as [t l]. unfold get_all_houses. unfold_world.
  destruct (find_houses t) as [c|e]; unfold_world; [|eauto].
  destruct (for_cursor c _ _ _) as [[houses|houses|e] w'];
    unfold_world; eauto.
Qed.

(** When the query of the directory raises, or the iteration of its
    cursor does, the directory is the empty list. *)
Lemma get_all_houses_failed {R} (w : world) (e : exn) :
  find_houses (clock w) = Raise e \/
  (exists c, find_houses (clock w) = Ok c /\ cursor_raises c = Some e) ->
  exists w', call (R' := R) get_all_houses w = (Value [], w').
Proof.
  destruct w as [t l]. cbn [clock]. unfold get_all_houses.
  intros [Hfail | (c & Hok & Hc)]; unfold_world.
  - rewrite Hfail. unfold_world. eauto.
  - rewrite Hok. unfold_world.
    edestruct (for_cursor_raises (R := list string)) as (e' & w' & ->);
      [| exact Hc |]; [|unfold_world; eauto].
    intros acc d w r w'. destruct w as [t' l'].
    destruct (py_truthy _); unfold_world; [|done].
    destruct (uuid_str_of_bytes _) as [s|[ | |name]]; unfold_world; done.
Qed.

Lemma call_calculate_match_percentage_value {R} (housing university : dict)
    (w : world) :
  exists w',
    call_calculate_match_percentage (R := R) housing university w
    = (Value (fst (calculate_match_percentage housing university (log w))), w').
Proof.
  unfold call_calculate_match_percentage.
  destruct (calculate_match_percentage _ _ _) as [p f]. eauto.
Qed.

(** The ranker returns one result per identifier of the directory, in the
    order of the directory. *)
Lemma get_all_probas_one_per_house (university_uuid : string) (w : world) :
  exists houses w1 results w2,
    call (R' := list house) get_all_houses
         (emit (INFO, StartingProbas university_uuid) w) = (Value houses, w1) /\
    get_all_probas university_uuid w = (Returned results, w2) /\
    map uid results = houses.
Proof.
  destruct (get_all_houses_returns (R := list house)
              (emit (INFO, StartingProbas university_uuid) w))
    as (houses & w1 & Hhouses).
  exists houses, w1.
  unfold get_all_probas.
  rewrite (bind_value _ _ w (emit (INFO, StartingProbas university_uuid) w) tt)
    by reflexivity.
  unfold try_except at 1.
  rewrite (bind_value _ _ _ _ _ Hhouses).
  match goal with
  | |- context [for_each houses [] ?body] =>
      destruct (for_each_appends uid body) with (l := houses) (acc := @nil house)
        (s := w1) as (results & w2 & Hloop & Hmap)
  end.
  - intros acc house_uuid s.
    destruct (get_filters_returns (R := list house) house_uuid s)
      as (housing & s1 & H1).
    destruct (get_filters_returns (R := list house) university_uuid s1)
      as (university & s2 & H2).
    destruct (call_calculate_match_percentage_value (R := list house)
                housing university s2) as (s3 & H3).
    rewrite (bind_value _ _ _ _ _ H1), (bind_value _ _ _ _ _ H2),
      (bind_value _ _ _ _ _ H3).
    unfold_world. eauto.
  - rewrite (bind_value _ _ _ _ _ Hloop). unfold_world.
    exists results. eauto.
Qed.

(** C8: the engine does not raise past its boundary.  When the lookup of the
    directory fails (the query raises, or the cursor does while it is
    iterated) the ranker returns the empty list; an exception inside the
    [try] block of the scorer gives the score 0.0 for the pair; and for
    every input the ranker returns a list. *)
Theorem engine_degrades (university_uuid : string) (w : world)
    (housing university : dict) (log0 : list log_record) :
  (forall e,
      find_houses (clock w) = Raise e \/
      (exists c, find_houses (clock w) = Ok c /\ cursor_raises c = Some e) ->
      exists w', get_all_probas university_uuid w = (Returned [], w')) /\
  (forall e f,
      calculate_match_percentage_try
        {| housing_filters := housing;
           university_filters := university;
           total_filters := 0;
           matched_filters := 0;
           frame_log := log0 ++ [(INFO, CalculatingMatch)] |} = (Raised e, f) ->
      fst (calculate_match_percentage housing university log0) = float_zero) /\
  (exists results w', get_all_probas university_uuid w = (Returned results, w')).
Proof.
  split; [|split].
  - intros e Hfail.
    destruct (get_all_probas_one_per_house university_uuid w)
      as (houses & w1 & results & w2 & Hhouses & Hrun & Hmap).
    destruct (get_all_houses_failed (R := list house)
                (emit (INFO, StartingProbas university_uuid) w) e)
      as (w1' & Hempty).
    { by destruct w. }
    rewrite Hempty in Hhouses. injection Hhouses as <- _.
    apply map_eq_nil in Hmap as ->. eauto.
  - intros e f Hraised. unfold calculate_match_percentage.
    by rewrite Hraised.
  - destruct (get_all_probas_one_per_house university_uuid w)
      as (houses & w1 & results & w2 & _ & Hrun & _).
    eauto.
Qed.

(** ** The rules, one at a time *)

(** On two texts, the pet rule looks for its labels in the first text
    followed by the second. *)
Lemma pet_rule_on_strings (a b : string) (h u : dict) (t m : Z)
    (l : list log_record) :
  h !! "animais_estimacao" = Some (VStr a) ->
  u !! "animais_estimacao" = Some (VStr b) ->
  pet_rule {| housing_filters := h; university_filters := u;
              total_filters := t; matched_filters := m; frame_log := l |}
  = if str_contains "Alergia" (a +:+ b) then
      (Returned float_zero,
       {| housing_filters := h; university_filters := u;
          total_filters := t; matched_filters := m;
          frame_log := l ++ [(INFO, AllergyDetected)] |})
    else if str_contains "Gosto muito" (a +:+ b)
            || str_contains "Não tenho, mas amo" (a +:+ b) then
      (Value tt,
       {| housing_filters := delete "animais_estimacao" h;
          university_filters := delete "animais_estimacao" u;
          total_filters := t + 1; matched_filters := m + 1;
          frame_log := l ++ [(DEBUG, PetOverrideApplied)] |})
    else
      (Value tt,
       {| housing_filters := h; university_filters := u;
          total_filters := t; matched_filters := m; frame_log := l |}).
Proof.
  intros Hh Hu. unfold pet_rule. unfold_stmt. unfold dict_get.
  rewrite Hh, Hu. unfold py_add, py_in. unfold_stmt.
  destruct (str_contains "Alergia" _); [done|].
  destruct (str_contains "Gosto muito" _); [done|].
  by destruct (str_contains "Não tenho, mas amo" _).
Qed.

(** When the wildcard applies, the gender rule counts the dimension and
    removes the field from both dictionaries; on two dictionaries without
    the field, the loop over [other_fields] counts it once more. *)
Lemma gender_wildcard_scored_twice (f : frame) :
  dict_get (housing_filters f) "preferencia_genero" (VStr "") = VStr "Tanto faz" \/
  dict_get (university_filters f) "preferencia_genero" (VStr "") = VStr "Tanto faz" ->
  (exists f1,
      gender_rule f = (Value tt, f1) /\
      total_filters f1 = total_filters f + 1 /\
      matched_filters f1 = matched_filters f + 1 /\
      housing_filters f1 !! "preferencia_genero" = None /\
      university_filters f1 !! "preferencia_genero" = None) /\
  (forall f2,
      housing_filters f2 !! "preferencia_genero" = None ->
      university_filters f2 !! "preferencia_genero" = None ->
      exists f3,
        compare_field "preferencia_genero" f2 = (Value tt, f3) /\
        total_filters f3 = total_filters f2 + 1 /\
        matched_filters f3 = matched_filters f2 + 1).
Proof.
  destruct f as [h u t m l]. cbn [housing_filters university_filters].
  intros Hwild. split.
  - unfold gender_rule, py_in, existsb. unfold_stmt.
    assert (py_eq (VStr "Tanto faz") (dict_get h "preferencia_genero" (VStr ""))
            || (py_eq (VStr "Tanto faz")
                  (dict_get u "preferencia_genero" (VStr "")) || false)
            = true) as ->.
    { destruct Hwild as [-> | ->]; simpl; [done | apply orb_true_r]. }
    unfold_stmt. eexists. split; [reflexivity|].
    cbn [housing_filters university_filters total_filters matched_filters].
    by rewrite !lookup_delete_eq.
  - intros [h2 u2 t2 m2 l2]. cbn [housing_filters university_filters].
    intros Hh Hu. unfold compare_field. unfold_stmt. unfold dict_get.
    rewrite Hh, Hu. simpl. eauto.
Qed.

(** A [ValueError] of the conversion leaves the occupancy unmatched and the
    scorer goes on; a [TypeError] leaves the [try] block of the scorer. *)
Lemma occupancy_value_error_not_fatal (f : frame) :
  py_int (dict_get (housing_filters f) "numero_maximo_pessoas" (VInt 0))
    = Raise ValueError ->
  exists f',
    occupancy_rule f = (Value tt, f') /\
    total_filters f' = total_filters f + 1 /\
    matched_filters f' = matched_filters f.
Proof.
  destruct f as [h u t m l]. cbn [housing_filters]. intros Hint.
  unfold occupancy_rule. unfold_stmt. rewrite Hint. unfold_stmt.
  cbn [is_ValueError]. eauto.
Qed.

Lemma occupancy_type_error_fatal (f : frame) :
  py_int (dict_get (housing_filters f) "numero_maximo_pessoas" (VInt 0))
    = Raise TypeError ->
  occupancy_rule f = (Raised TypeError, f).
Proof.
  destruct f as [h u t m l]. cbn [housing_filters]. intros Hint.
  unfold occupancy_rule. unfold_stmt. rewrite Hint. unfold_stmt.
  by cbn [is_ValueError].
Qed.

(** ** What a call of the scorer counts *)







(** ** What a call of the scorer leaves in its dictionaries *)

Lemma removes_only_refl (d : dict) : removes_only d d.
Proof. intros key. by left. Qed.

Lemma removes_only_trans (d1 d2 d3 : dict) :
  removes_only d1 d2 -> removes_only d2 d3 -> removes_only d1 d3.
Proof.
  intros H12 H23 key. destruct (H23 key) as [H|H]; [|by right].
  rewrite H. apply H12.
Qed.

Lemma removes_only_delete (d : dict) (field : string) :
  field ∈ removable_fields -> removes_only d (delete field d).
Proof.
  intros Hin key. destruct (decide (field = key)) as [<-|Hne].
  - right. by rewrite lookup_delete_eq.
  - left. by rewrite lookup_delete_ne.
Qed.

Lemma frame_removes_only_refl (f : frame) : frame_removes_only f f.
Proof. split; apply removes_only_refl. Qed.

Lemma frame_removes_only_trans (f1 f2 f3 : frame) :
  frame_removes_only f1 f2 -> frame_removes_only f2 f3 ->
  frame_removes_only f1 f3.
Proof. intros [] []. split; by eapply removes_only_trans. Qed.

Lemma always_bind {A B} (P : frame -> frame -> Prop)
    (m : stmt frame float A) (c : A -> stmt frame float B) :
  (forall f1 f2 f3, P f1 f2 -> P f2 f3 -> P f1 f3) ->
  always P m -> (forall a, always P (c a)) -> always P (bind m c).
Proof.
  intros Htrans Hm Hc f. specialize (Hm f). unfold bind.
  destruct (m f) as [[a|x|e] f']; cbn [snd] in *; [|done|done].
  eapply Htrans; [exact Hm | apply Hc].
Qed.

Ltac close_removes_only :=
  split; cbn [housing_filters university_filters];
  first [ apply removes_only_refl
        | apply removes_only_delete; unfold removable_fields;
          repeat constructor ].

Lemma pet_rule_removes_only : always frame_removes_only pet_rule.
Proof.
  intros [h u t m l]. unfold pet_rule. run_stmt; close_removes_only.
Qed.

Lemma gender_rule_removes_only : always frame_removes_only gender_rule.
Proof.
  intros [h u t m l]. unfold gender_rule. run_stmt; close_removes_only.
Qed.

Lemma occupancy_rule_removes_only : always frame_removes_only occupancy_rule.
Proof.
  intros [h u t m l]. unfold occupancy_rule. run_stmt; close_removes_only.
Qed.

Lemma compare_field_removes_only (field : string) :
  always frame_removes_only (compare_field field).
Proof.
  intros [h u t m l]. unfold compare_field. run_stmt; close_removes_only.
Qed.

Lemma percentage_removes_only : always frame_removes_only percentage.
Proof.
  intros [h u t m l]. unfold percentage. run_stmt; close_removes_only.
Qed.

(** The scorer changes the two dictionaries it is given only by removing
    fields, and only the pet tolerance, the gender preference and the
    occupancy: every other key keeps its value, whatever the outcome. *)
Theorem scorer_only_removes_fields (housing university : dict)
    (log0 : list log_record) :
  let '(_, f) := calculate_match_percentage housing university log0 in
  removes_only housing (housing_filters f) /\
  removes_only university (university_filters f).
Proof.
  unfold calculate_match_percentage.
  set (entry := {| housing_filters := housing |}).
  assert (H : always frame_removes_only calculate_match_percentage_try).
  { unfold calculate_match_percentage_try, other_fields, for_each.
    apply always_bind;
      [exact frame_removes_only_trans | apply pet_rule_removes_only |].
    intros _. apply always_bind;
      [exact frame_removes_only_trans | apply gender_rule_removes_only |].
    intros _. apply always_bind;
      [exact frame_removes_only_trans | apply occupancy_rule_removes_only |].
    intros _. apply always_bind;
      [exact frame_removes_only_trans | | intros _; apply percentage_removes_only].
    apply always_bind;
      [exact frame_removes_only_trans | apply compare_field_removes_only |].
    intros _. apply always_bind;
      [exact frame_removes_only_trans | apply compare_field_removes_only |].
    intros _. apply always_bind;
      [exact frame_removes_only_trans | apply compare_field_removes_only |].
    intros a f. apply frame_removes_only_refl. }
  specialize (H entry).
  destruct (calculate_match_percentage_try entry) as [[x|x|e] [h u t m l]];
    exact H.
Qed.

(** ** The fields the score depends on *)

Lemma same_fields_delete (d d' : dict) (key : string) :
  same_fields d d' -> same_fields (delete key d) (delete key d').
Proof.
  unfold same_fields. intros H. eapply Forall_impl; [exact H|].
  intros field Heq. simpl. rewrite !lookup_delete. by case_decide.
Qed.

Lemma same_fields_get (d d' : dict) (field : string) (default : value) :
  same_fields d d' -> field ∈ fields_to_process ->
  dict_get d field default = dict_get d' field default.
Proof.
  unfold same_fields, dict_get. rewrite Forall_forall.
  intros H Hin. by rewrite (H field Hin).
Qed.

Lemma same_result_bind {A B} (m1 m2 : stmt frame float A)
    (c1 c2 : A -> stmt frame float B) (f g : frame) :
  same_result (m1 f) (m2 g) ->
  (forall a f' g', alike f' g' -> same_result (c1 a f') (c2 a g')) ->
  same_result (bind m1 c1 f) (bind m2 c2 g).
Proof.
  intros Hm Hc. unfold bind.
  destruct (m1 f) as [[a|x|e] f'], (m2 g) as [[b|y|e'] g']; simpl in *;
    try done.
  destruct Hm as [-> Hm]. by apply Hc.
Qed.

Ltac use_same_fields Hh Hu :=
  repeat match goal with
  | |- context [dict_get ?d ?field ?default] =>
      first [ rewrite (same_fields_get d _ field default Hh)
                by (unfold fields_to_process; set_solver)
            | rewrite (same_fields_get d _ field default Hu)
                by (unfold fields_to_process; set_solver) ]
  end.

Ltac close_alike :=
  unfold same_result, alike;
  cbn [housing_filters university_filters total_filters matched_filters];
  repeat split; auto using same_fields_delete.

Lemma pet_rule_alike (f g : frame) :
  alike f g -> same_result (pet_rule f) (pet_rule g).
Proof.
  destruct f as [h u t m l], g as [h' u' t' m' l'].
  intros (Hh & Hu & Ht & Hm); simpl in *; subst.
  unfold pet_rule. unfold_stmt. use_same_fields Hh Hu.
  run_stmt; close_alike.
Qed.

Lemma gender_rule_alike (f g : frame) :
  alike f g -> same_result (gender_rule f) (gender_rule g).
Proof.
  destruct f as [h u t m l], g as [h' u' t' m' l'].
  intros (Hh & Hu & Ht & Hm); simpl in *; subst.
  unfold gender_rule. unfold_stmt. use_same_fields Hh Hu.
  run_stmt; close_alike.
Qed.

Lemma occupancy_rule_alike (f g : frame) :
  alike f g -> same_result (occupancy_rule f) (occupancy_rule g).
Proof.
  destruct f as [h u t m l], g as [h' u' t' m' l'].
  intros (Hh & Hu & Ht & Hm); simpl in *; subst.
  unfold occupancy_rule. unfold_stmt. use_same_fields Hh Hu.
  destruct (py_int (dict_get h' _ _)) as [zh|eh]; unfold_stmt.
  - use_same_fields Hh Hu. run_stmt; close_alike.
  - run_stmt; close_alike.
Qed.

Lemma compare_field_alike (field : string) (f g : frame) :
  field ∈ fields_to_process ->
  alike f g -> same_result (compare_field field f) (compare_field field g).
Proof.
  destruct f as [h u t m l], g as [h' u' t' m' l'].
  intros Hin (Hh & Hu & Ht & Hm); simpl in *; subst.
  unfold compare_field. unfold_stmt.
  rewrite (same_fields_get h h' field VNone Hh Hin),
          (same_fields_get u u' field VNone Hu Hin).
  run_stmt; close_alike.
Qed.

Lemma percentage_alike (f g : frame) :
  alike f g -> same_result (percentage f) (percentage g).
Proof.
  destruct f as [h u t m l], g as [h' u' t' m' l'].
  intros (Hh & Hu & Ht & Hm); simpl in *; subst.
  unfold percentage. run_stmt; close_alike.
Qed.

Lemma calculate_match_percentage_try_alike (f g : frame) :
  alike f g ->
  same_result (calculate_match_percentage_try f)
              (calculate_match_percentage_try g).
Proof.
  intros H0. unfold calculate_match_percentage_try, other_fields, for_each.
  apply same_result_bind; [by apply pet_rule_alike|]. intros _ f1 g1 H1.
  apply same_result_bind; [by apply gender_rule_alike|]. intros _ f2 g2 H2.
  apply same_result_bind; [by apply occupancy_rule_alike|]. intros _ f3 g3 H3.
  apply same_result_bind.
  - apply same_result_bind;
      [apply compare_field_alike;
         [unfold fields_to_process; set_solver | done]|].
    intros _ f4 g4 H4.
    apply same_result_bind;
      [apply compare_field_alike;
         [unfold fields_to_process; set_solver | done]|].
    intros _ f5 g5 H5.
    apply same_result_bind;
      [apply compare_field_alike;
         [unfold fields_to_process; set_solver | done]|].
    intros a f6 g6 H6. by split.
  - intros _ f7 g7 H7. by apply percentage_alike.
Qed.

(** The score and the two counters depend on the five recognized fields
    only: any other key of the two dictionaries, and the log so far, change
    nothing. *)
Theorem score_depends_on_recognized_fields (housing housing' university
    university' : dict) (log0 log1 : list log_record) :
  same_fields housing housing' ->
  same_fields university university' ->
  let '(score, f) := calculate_match_percentage housing university log0 in
  let '(score', f') := calculate_match_percentage housing' university' log1 in
  score = score' /\
  total_filters f = total_filters f' /\
  matched_filters f = matched_filters f'.
Proof.
  intros Hh Hu. unfold calculate_match_percentage.
  set (f0 := {| housing_filters := housing |}).
  set (g0 := {| housing_filters := housing' |}).
  assert (Hsim : same_result (calculate_match_percentage_try f0)
                             (calculate_match_percentage_try g0)).
  { apply calculate_match_percentage_try_alike. by repeat split. }
  destruct (calculate_match_percentage_try f0) as [[x|x|e] [h u t m l]],
           (calculate_match_percentage_try g0) as [[y|y|e'] [h' u' t' m' l']];
    cbn [same_result] in Hsim; try done;
    destruct Hsim as (? & _ & _ & ? & ?); by simpl in *.
Qed.

(** ** Edge cases of the scorer *)

Lemma py_eq_str (s : string) (v : value) :
  py_eq (VStr s) v = true <-> v = VStr s.
Proof.
  destruct v; simpl; try (split; [done | congruence]).
  rewrite String.eqb_eq. split; congruence.
Qed.

(** The wildcard of the gender preference is an exact match: the rule
    counts the dimension when the value of either side is the text
    "Tanto faz" itself, and does nothing for any other value, a text that
    holds "Tanto faz" as a part included. *)
Theorem gender_wildcard_is_exact (f : frame) :
  let h := dict_get (housing_filters f) "preferencia_genero" (VStr "") in
  let u := dict_get (university_filters f) "preferencia_genero" (VStr "") in
  (h = VStr "Tanto faz" \/ u = VStr "Tanto faz" ->
   gender_rule f =
     (Value tt,
      {| housing_filters := delete "preferencia_genero" (housing_filters f);
         university_filters :=
           delete "preferencia_genero" (university_filters f);
         total_filters := total_filters f + 1;
         matched_filters := matched_filters f + 1;
         frame_log := frame_log f ++ [(DEBUG, GenderWildcardApplied)] |})) /\
  (h <> VStr "Tanto faz" -> u <> VStr "Tanto faz" ->
   gender_rule f = (Value tt, f)).
Proof.
  destruct f as [h u t m l]. cbn zeta.
  cbn [housing_filters university_filters total_filters matched_filters
       frame_log].
  split.
  - intros Hwild. unfold gender_rule, py_in, existsb. unfold_stmt.
    assert (py_eq (VStr "Tanto faz") (dict_get h "preferencia_genero" (VStr ""))
            || (py_eq (VStr "Tanto faz")
                  (dict_get u "preferencia_genero" (VStr "")) || false)
            = true) as ->; [|done].
    destruct Hwild as [-> | ->]; simpl; [done | apply orb_true_r].
  - intros Hh Hu. unfold gender_rule, py_in, existsb. unfold_stmt.
    assert (py_eq (VStr "Tanto faz") (dict_get h "preferencia_genero" (VStr ""))
            || (py_eq (VStr "Tanto faz")
                  (dict_get u "preferencia_genero" (VStr "")) || false)
            = false) as ->; [|done].
    rewrite orb_false_r. apply orb_false_iff.
    split; apply not_true_is_false; by rewrite py_eq_str.
Qed.

(** A side without data (the empty dictionary) against a side whose pet
    tolerance is present and is no list: adding the default list and the
    value raises, and the score is 0.0 in both orders. *)
Theorem no_data_against_pet_value_scores_zero (d : dict) (v : value)
    (log0 : list log_record) :
  d !! "animais_estimacao" = Some v ->
  (forall l, v <> VList l) ->
  fst (calculate_match_percentage ∅ d log0) = float_zero /\
  fst (calculate_match_percentage d ∅ log0) = float_zero.
Proof.
  intros Hv Hlist.
  unfold calculate_match_percentage, calculate_match_percentage_try, pet_rule.
  unfold_stmt. unfold dict_get. rewrite Hv, lookup_empty.
  destruct v as [ | | | | |l]; try (by split); by destruct (Hlist l).
Qed.

(** Two sides that hold none of the five recognized fields: nothing is
    vetoed, zero occupants are at most zero occupants, the three other
    fields are absent on both sides and compare equal; the score is 100.0,
    four filters out of four. *)
Theorem no_data_pair_scores_100 (housing university : dict)
    (log0 : list log_record) :
  Forall (fun field => housing !! field = None) fields_to_process ->
  Forall (fun field => university !! field = None) fields_to_process ->
  let '(score, f) := calculate_match_percentage housing university log0 in
  score = float_of_int 100 /\ total_filters f = 4 /\ matched_filters f = 4.
Proof.
  intros Hh Hu. unfold calculate_match_percentage.
  set (f0 := {| housing_filters := housing |}).
  set (g0 := {| housing_filters := (∅ : dict); university_filters := ∅;
                total_filters := 0; matched_filters := 0; frame_log := [] |}).
  assert (Hsim : same_result (calculate_match_percentage_try f0)
                             (calculate_match_percentage_try g0)).
  { apply calculate_match_percentage_try_alike.
    split; [|split; [|done]]; cbn [housing_filters university_filters f0 g0].
    - eapply Forall_impl; [exact Hh|]. intros field ->. by rewrite lookup_empty.
    - eapply Forall_impl; [exact Hu|]. intros field ->. by rewrite lookup_empty. }
  assert (Hg : exists g,
             calculate_match_percentage_try g0
             = (Returned (float_of_int 100), g) /\
             total_filters g = 4 /\ matched_filters g = 4).
  { eexists. split; [vm_compute; reflexivity | done]. }
  destruct Hg as (g & Hg & Htotal & Hmatched). rewrite Hg in Hsim.
  clearbody f0 g0.
  destruct (calculate_match_percentage_try f0) as [[x|x|e] f];
    cbn [same_result] in Hsim; [destruct Hsim | | destruct Hsim].
  destruct Hsim as (-> & _ & _ & -> & ->). by repeat split.
Qed.

(** ** The score of two sides with texts and integers *)

Lemma dict_get_some (d : dict) (key : string) (v default : value) :
  d !! key = Some v -> dict_get d key default = v.
Proof. unfold dict_get. by intros ->. Qed.

Ltac read_field :=
  first
    [ rewrite dict_get_delete_eq
    | rewrite dict_get_delete_ne; [|done]
    | erewrite dict_get_some; [|eassumption] ].

Ltac read_fields :=
  repeat (progress (unfold_stmt; repeat read_field;
                    cbn [py_add py_in py_int py_eq existsb orb])).

(** For two sides whose pet tolerance, gender preference, smoking and
    drinking are texts and whose occupancy is an integer, the scorer is a
    closed formula.  A label "Alergia" in the two pet texts, one after the
    other, gives 0.0.  Otherwise the occupancy and the three other fields
    count as four filters, the pet override as one more and the wildcard as
    one more; the matches are the override, the wildcard twice (once by its
    rule, once by the loop over the other fields, which finds the field
    removed on both sides), the occupancy when the candidate's is at most the
    seeker's, and each other field that is equal on both sides. *)
Theorem score_of_text_attributes (housing university : dict)
    (p g s d p' g' s' d' : string) (o o' : Z) (log0 : list log_record) :
  housing !! "animais_estimacao" = Some (VStr p) ->
  housing !! "preferencia_genero" = Some (VStr g) ->
  housing !! "numero_maximo_pessoas" = Some (VInt o) ->
  housing !! "frequencia_fumo" = Some (VStr s) ->
  housing !! "frequencia_bebida" = Some (VStr d) ->
  university !! "animais_estimacao" = Some (VStr p') ->
  university !! "preferencia_genero" = Some (VStr g') ->
  university !! "numero_maximo_pessoas" = Some (VInt o') ->
  university !! "frequencia_fumo" = Some (VStr s') ->
  university !! "frequencia_bebida" = Some (VStr d') ->
  let text := p +:+ p' in
  let love := str_contains "Gosto muito" text
              || str_contains "Não tenho, mas amo" text in
  let wild := String.eqb "Tanto faz" g || String.eqb "Tanto faz" g' in
  let total := 4 + Z.b2z love + Z.b2z wild in
  let matched :=
    Z.b2z love + 2 * Z.b2z wild + Z.b2z (o <=? o')
    + Z.b2z (negb wild && String.eqb g g')
    + Z.b2z (String.eqb s s') + Z.b2z (String.eqb d d') in
  let '(score, f) := calculate_match_percentage housing university log0 in
  if str_contains "Alergia" text then
    score = float_zero /\ total_filters f = 0
  else
    total_filters f = total /\ matched_filters f = matched /\
    score = float_times_100 (int_truediv matched total).
Proof.
  intros Hp Hg Ho Hs Hd Hp' Hg' Ho' Hs' Hd'. cbn zeta.
  unfold calculate_match_percentage, calculate_match_percentage_try,
    pet_rule, gender_rule, occupancy_rule, other_fields, for_each,
    compare_field, percentage.
  read_fields.
  destruct (str_contains "Alergia" (p +:+ p')); read_fields; [done|].
  destruct (str_contains "Gosto muito" (p +:+ p')),
           (str_contains "Não tenho, mas amo" (p +:+ p'));
    read_fields;
    destruct (String.eqb "Tanto faz" g), (String.eqb "Tanto faz" g');
    read_fields;
    destruct (o <=? o'); read_fields;
    try destruct (String.eqb g g'); read_fields;
    destruct (String.eqb s s'); read_fields;
    destruct (String.eqb d d'); read_fields;
    repeat split; reflexivity.
Qed.

(** ** More on the normalizer *)

Lemma str_contains_char (c a : ascii) (s : string) :
  str_contains (String c EmptyString) (String a s)
  = (if ascii_dec c a then true else false)
    || str_contains (String c EmptyString) s.
Proof.
  simpl. destruct (ascii_dec c a); [|done]. by destruct s.
Qed.

Lemma str_contains_char_empty (c : ascii) :
  str_contains (String c EmptyString) EmptyString = false.
Proof. done. Qed.

Lemma str_remove_removes (c : ascii) (s : string) :
  str_contains (String c EmptyString) (str_remove c s) = false.
Proof.
  induction s as [|a s IH]; [done|]. cbn [str_remove].
  destruct (Ascii.eqb a c) eqn:Heq; [done|].
  rewrite str_contains_char, IH.
  destruct (ascii_dec c a) as [->|]; [|done].
  by rewrite Ascii.eqb_refl in Heq.
Qed.

Lemma str_remove_keeps_absent (c c' : ascii) (s : string) :
  str_contains (String c EmptyString) s = false ->
  str_contains (String c EmptyString) (str_remove c' s) = false.
Proof.
  induction s as [|a s IH]; [done|]. rewrite str_contains_char.
  intros [Ha Hs]%orb_false_iff. cbn [str_remove].
  destruct (Ascii.eqb a c'); [by apply IH|].
  rewrite str_contains_char, Ha. by apply IH.
Qed.

Lemma str_remove_absent (c : ascii) (s : string) :
  str_contains (String c EmptyString) s = false -> str_remove c s = s.
Proof.
  induction s as [|a s IH]; [done|]. rewrite str_contains_char.
  intros [Ha Hs]%orb_false_iff. cbn [str_remove].
  destruct (Ascii.eqb a c) eqn:Heq.
  - apply Ascii.eqb_eq in Heq as ->. by destruct (ascii_dec c c).
  - by rewrite IH.
Qed.

(** The normalizer strips every bracket from a text: neither "[" nor "]" is
    left in it; a value that is no text is kept as it is; and stripping a
    second time changes nothing. *)
Theorem strip_brackets_removes_all (v : value) :
  match strip_brackets v with
  | VStr s' => str_contains "[" s' = false /\ str_contains "]" s' = false
  | other => other = v
  end /\
  strip_brackets (strip_brackets v) = strip_brackets v.
Proof.
  destruct v as [ | | |s| | ]; try done. cbn [strip_brackets].
  assert (Hopen : str_contains "[" (str_remove "]" (str_remove "[" s)) = false)
    by apply str_remove_keeps_absent, str_remove_removes.
  assert (Hclose : str_contains "]" (str_remove "]" (str_remove "[" s)) = false)
    by apply str_remove_removes.
  split; [done|].
  by rewrite (str_remove_absent "[" _ Hopen), (str_remove_absent "]" _ Hclose).
Qed.

(** For a document that is found, the normalizer returns exactly the five
    recognized keys, each with the value of the document stripped of its
    brackets or with [None] when the document lacks the field; every other
    field of the document is left out. *)
Theorem get_filters_found_keys (uuid_str binary_uuid : string) (w : world)
    (user : dict) :
  uuid_of_str uuid_str = Some binary_uuid ->
  find_one (clock w) binary_uuid = Ok (Some user) ->
  user <> ∅ ->
  exists d w',
    get_filters uuid_str w = (Returned d, w') /\
    dom d = list_to_set fields_to_process /\
    Forall (fun field =>
              d !! field = Some (strip_brackets (dict_get user field VNone)))
           fields_to_process.
Proof.
  destruct w as [t l]. cbn [clock]. intros Hgood Hfound Hne.
  unfold get_filters; unfold_world.
  rewrite Hgood. unfold_world. rewrite Hfound. unfold_world.
  destruct (decide (user = ∅)) as [|_]; [done|]. unfold_world.
  do 2 eexists. split; [reflexivity|]. split.
  - rewrite !dom_insert_L, dom_empty_L. cbn [list_to_set]. set_solver.
  - repeat constructor; by simplify_map_eq.
Qed.

(** The normalizer sends one query to the collection for an identifier that
    is a UUID, and none for one that is not. *)
Theorem get_filters_queries_once (uuid_str : string) (w : world) :
  clock (snd (get_filters uuid_str w))
  = (clock w + match uuid_of_str uuid_str with Some _ => 1 | None => 0 end)%nat.
Proof.
  destruct w as [t l]. unfold get_filters; unfold_world.
  destruct (uuid_of_str uuid_str) as [b|]; unfold_world; [|simpl; lia].
  destruct (find_one t b) as [[user|]|e]; unfold_world; [|simpl; lia..].
  destruct (decide (user = ∅)); unfold_world; simpl; lia.
Qed.

(** When the query of the collection raises, or answers with an empty
    document, the normalizer returns the empty dictionary. *)
Theorem get_filters_degrades (uuid_str binary_uuid : string) (w : world) :
  uuid_of_str uuid_str = Some binary_uuid ->
  (exists e, find_one (clock w) binary_uuid = Raise e) \/
  find_one (clock w) binary_uuid = Ok (Some ∅) ->
  exists w', get_filters uuid_str w = (Returned ∅, w').
Proof.
  destruct w as [t l]. cbn [clock]. intros Hgood [[e Hfail] | Hempty];
    unfold get_filters; unfold_world; rewrite Hgood; unfold_world.
  - rewrite Hfail. unfold_world. eauto.
  - rewrite Hempty. unfold_world.
    destruct (decide ((∅ : dict) = ∅)); [|done]. unfold_world. eauto.
Qed.

(** ** More on the directory *)

Lemma for_cursor_lists {R}
    (body : list string -> dict -> stmt world R (list string)) (c : cursor) :
  (forall acc d w, ~ conversion_aborts d ->
     exists w', body acc d w
                = (Value (acc ++ from_option (fun s => [s]) [] (listed_uuid d))%list,
                   w') /\
                clock w' = clock w) ->
  cursor_raises c = None ->
  Forall (fun d => ~ conversion_aborts d) (cursor_documents c) ->
  forall acc w, exists w',
    for_cursor c acc body w
    = (Value (acc ++ omap listed_uuid (cursor_documents c))%list, w') /\
    clock w' = clock w.
Proof.
  intros Hbody. induction c as [|d rest IH|e]; simpl; intros Hc Hdocs acc w.
  - exists w. by rewrite app_nil_r.
  - apply Forall_cons in Hdocs as [Hd Hrest].
    destruct (Hbody acc d w Hd) as (w1 & Hrun & Hclock).
    destruct (IH Hc Hrest
                (acc ++ from_option (fun s => [s]) [] (listed_uuid d))%list w1)
      as (w2 & Hloop & Hclock2).
    exists w2. rewrite (bind_value _ _ _ _ _ Hrun), Hloop.
    split; [|congruence]. f_equal. rewrite <- app_assoc. f_equal.
    by destruct (listed_uuid d).
  - done.
Qed.

Lemma for_cursor_aborts {R}
    (body : list string -> dict -> stmt world R (list string)) (c : cursor) :
  (forall acc d w r w', body acc d w <> (Returned r, w')) ->
  (forall acc d w, conversion_aborts d ->
     exists e w', body acc d w = (Raised e, w')) ->
  Exists conversion_aborts (cursor_documents c) ->
  forall acc w, exists e w', for_cursor c acc body w = (Raised e, w').
Proof.
  intros Hnoreturn Hbody.
  induction c as [|d rest IH|e]; simpl; intros Hdocs acc w.
  - by apply Exists_nil in Hdocs.
  - unfold bind. destruct (body acc d w) as [[acc'|r|e'] w1] eqn:Hrun.
    + apply Exists_cons in Hdocs as [Hd | Hrest]; [|by apply IH].
      destruct (Hbody acc d w Hd) as (e & w' & Hraise). congruence.
    + by apply Hnoreturn in Hrun.
    + eauto.
  - by apply Exists_nil in Hdocs.
Qed.

Lemma for_cursor_clock {R}
    (body : list string -> dict -> stmt world R (list string)) (c : cursor) :
  (forall acc d w, clock (snd (body acc d w)) = clock w) ->
  forall acc w, clock (snd (for_cursor c acc body w)) = clock w.
Proof.
  intros Hbody. induction c as [|d rest IH|e]; simpl; intros acc w; [done| |done].
  unfold bind. specialize (Hbody acc d w).
  destruct (body acc d w) as [[acc'|r|e'] w1]; simpl in *; [|done|done].
  by rewrite IH.
Qed.

(** When neither the query nor the cursor raises and no conversion raises
    an exception other than a [ValueError] or a [TypeError], the directory
    is the list of the identifiers of the documents, in the order of the
    cursor, without the documents whose identifier is missing, false or
    refused by the conversion. *)
Theorem get_all_houses_lists_documents (w : world) (c : cursor) :
  find_houses (clock w) = Ok c ->
  cursor_raises c = None ->
  Forall (fun d => ~ conversion_aborts d) (cursor_documents c) ->
  exists w',
    get_all_houses w
    = (Returned (omap listed_uuid (cursor_documents c)), w').
Proof.
  destruct w as [t l]. cbn [clock]. intros Hfind Hc Hdocs.
  unfold get_all_houses. unfold_world. rewrite Hfind. unfold_world.
  edestruct (for_cursor_lists (R := list string)) as (w' & -> & _);
    [| exact Hc | exact Hdocs |]; [|unfold_world; eauto].
  intros acc d [t' l'] Hd. unfold listed_uuid, conversion_aborts in *.
  destruct (py_truthy _); unfold_world; [|rewrite app_nil_r; eauto].
  destruct (uuid_str_of_bytes _) as [s|e]; unfold_world; [eauto|].
  destruct (is_ValueError_or_TypeError e) eqn:He; unfold_world.
  - rewrite app_nil_r. eauto.
  - destruct Hd. eauto.
Qed.

(** One document whose conversion raises another exception than a
    [ValueError] or a [TypeError] empties the directory: the houses listed
    before it are lost with it. *)
Theorem get_all_houses_aborts (w : world) (c : cursor) :
  find_houses (clock w) = Ok c ->
  Exists conversion_aborts (cursor_documents c) ->
  exists w', get_all_houses w = (Returned [], w').
Proof.
  destruct w as [t l]. cbn [clock]. intros Hfind Hdocs.
  unfold get_all_houses. unfold_world. rewrite Hfind. unfold_world.
  edestruct (for_cursor_aborts (R := list string)) as (e & w' & ->);
    [| | exact Hdocs |]; [| |unfold_world; eauto].
  - intros acc d [t' l'] r w'.
    destruct (py_truthy _); unfold_world; [|done].
    destruct (uuid_str_of_bytes _) as [s|[ | |name]]; unfold_world; done.
  - intros acc d [t' l'] (Htruthy & e & Hraise & He).
    rewrite Htruthy. unfold_world. rewrite Hraise. unfold_world.
    rewrite He. eauto.
Qed.

(** The directory sends exactly one query to the collection. *)
Theorem get_all_houses_queries_once (w : world) :
  clock (snd (get_all_houses w)) = S (clock w).
Proof.
  destruct w as [t l]. unfold get_all_houses. unfold_world.
  destruct (find_houses t) as [c|e]; unfold_world; [|done].
  match goal with
  | |- context [for_cursor c [] ?body ?w0] =>
      pose proof (for_cursor_clock (R := list string) body c) as Hclock;
      specialize (Hclock ltac:(
        intros acc d [t' l'];
        destruct (py_truthy _); unfold_world; [|done];
        destruct (uuid_str_of_bytes _) as [s|[ | |name]]; unfold_world; done)
        [] w0);
      destruct (for_cursor c [] body w0) as [[houses|houses|e] [t1 l1]]
  end; unfold_world; simpl in *; congruence.
Qed.

(** ** More on the ranker *)

Lemma get_filters_call {R} (uuid_str : string) (w : world) :
  exists w',
    call (R' := R) (get_filters uuid_str) w
    = (Value (filters_at (clock w) uuid_str), w') /\
    (clock w <= clock w' <= clock w + 1)%nat.
Proof.
  destruct w as [t l]. unfold filters_at, get_filters; unfold_world.
  destruct (uuid_of_str uuid_str) as [b|]; unfold_world;
    [|eexists; split; [reflexivity | simpl; lia]].
  destruct (find_one t b) as [[user|]|e]; unfold_world;
    [|eexists; split; [reflexivity | simpl; lia]..].
  destruct (decide (user = ∅)); unfold_world;
    eexists; (split; [reflexivity | simpl; lia]).
Qed.

Lemma call_calculate_match_percentage_clock {R} (housing university : dict)
    (w : world) :
  exists w',
    call_calculate_match_percentage (R := R) housing university w
    = (Value (fst (calculate_match_percentage housing university (log w))), w')
    /\ clock w' = clock w.
Proof.
  unfold call_calculate_match_percentage.
  destruct (calculate_match_percentage _ _ _) as [p f]. eauto.
Qed.

(** A loop over the houses whose body appends one result per turn and
    sends at most two queries per turn. *)
Lemma for_each_collects {R A B} (P : A -> B -> Prop)
    (body : list B -> A -> stmt world R (list B)) :
  (forall acc x s, exists r s',
      body acc x s = (Value (acc ++ [r])%list, s') /\ P x r /\
      (clock s <= clock s' <= clock s + 2)%nat) ->
  forall l acc s, exists rs s',
      for_each l acc body s = (Value (acc ++ rs)%list, s') /\
      Forall2 P l rs /\
      (clock s <= clock s' <= clock s + 2 * length l)%nat.
Proof.
  intros Hbody. induction l as [|x l IH]; intros acc s; simpl.
  - exists [], s. rewrite app_nil_r. split; [done|]. split; [constructor | lia].
  - destruct (Hbody acc x s) as (r & s1 & Hrun & Hr & Hclock).
    destruct (IH (acc ++ [r])%list s1) as (rs & s2 & Hrest & Hrs & Hclock2).
    exists (r :: rs), s2. rewrite (bind_value _ _ _ _ _ Hrun), Hrest.
    split; [by rewrite <- app_assoc|]. split; [by constructor | lia].
Qed.

Lemma get_all_houses_call {R} (w : world) :
  exists houses w',
    call (R' := R) get_all_houses w = (Value houses, w') /\
    clock w' = S (clock w).
Proof.
  destruct w as [t l]. unfold get_all_houses. unfold_world.
  destruct (find_houses t) as [c|e]; unfold_world; [|eauto].
  match goal with
  | |- context [for_cursor c [] ?body ?w0] =>
      pose proof (for_cursor_clock (R := list string) body c) as Hclock;
      specialize (Hclock ltac:(
        intros acc d [t' l'];
        destruct (py_truthy _); unfold_world; [|done];
        destruct (uuid_str_of_bytes _) as [s|[ | |name]]; unfold_world; done)
        [] w0);
      destruct (for_cursor c [] body w0) as [[houses|houses|e] [t1 l1]]
  end; unfold_world; simpl in *; subst; eauto.
Qed.

(** One run of the ranker: the directory, then one result per house, each
    the score of the normalized house against the normalized seeker, for at
    most two queries per house after the query of the directory. *)
Lemma get_all_probas_run (university_uuid : string) (w : world) :
  exists houses results w',
    get_all_probas university_uuid w = (Returned results, w') /\
    Forall2 (ranks university_uuid) houses results /\
    (clock w + 1 <= clock w' <= clock w + 1 + 2 * length houses)%nat.
Proof.
  destruct (get_all_houses_call (R := list house)
              (emit (INFO, StartingProbas university_uuid) w))
    as (houses & w1 & Hhouses & Hclock1).
  exists houses. unfold get_all_probas.
  rewrite (bind_value _ _ w (emit (INFO, StartingProbas university_uuid) w) tt)
    by reflexivity.
  unfold try_except at 1.
  rewrite (bind_value _ _ _ _ _ Hhouses).
  match goal with
  | |- context [for_each houses [] ?body] =>
      destruct (for_each_collects (ranks university_uuid) body)
        with (l := houses) (acc := @nil house) (s := w1)
        as (results & w2 & Hloop & Hranks & Hclock2)
  end.
  - intros acc house_uuid s.
    destruct (get_filters_call (R := list house) house_uuid s)
      as (s1 & H1 & Hc1).
    destruct (get_filters_call (R := list house) university_uuid s1)
      as (s2 & H2 & Hc2).
    destruct (call_calculate_match_percentage_clock (R := list house)
                (filters_at (clock s) house_uuid)
                (filters_at (clock s1) university_uuid) s2)
      as (s3 & H3 & Hc3).
    rewrite (bind_value _ _ _ _ _ H1), (bind_value _ _ _ _ _ H2),
      (bind_value _ _ _ _ _ H3).
    destruct s as [t0 l0], s1 as [t1 l1], s2 as [t2 l2], s3 as [t3 l3].
    unfold_world. cbn [clock log] in *.
    do 2 eexists. split; [reflexivity|]. split.
    + split; [done|]. by exists t0, t1, l2.
    + cbn [clock]. lia.
  - rewrite (bind_value _ _ _ _ _ Hloop). destruct w2 as [t2 l2].
    unfold_world. exists results. eexists. split; [reflexivity|].
    split; [done|]. destruct w as [t l]. simpl in *. lia.
Qed.

Lemma calculate_match_percentage_in_range (housing university : dict)
    (log0 : list log_record) :
  in_range (fst (calculate_match_percentage housing university log0)).
Proof.
  unfold calculate_match_percentage.
  set (entry := {| housing_filters := housing |}).
  assert (Hentry : counters_ok 0 entry) by (unfold counters_ok; simpl; lia).
  destruct (keeps_calculate_match_percentage_try entry Hentry) as [_ Hret].
  destruct (calculate_match_percentage_try entry) as [[x|x|e] f] eqn:Hrun;
    cbn [fst] in *.
  - by apply calculate_match_percentage_try_leaves in Hrun.
  - done.
  - apply in_range_zero.
Qed.

Lemma calculate_match_percentage_ignores_log (housing university : dict)
    (log0 log1 : list log_record) :
  fst (calculate_match_percentage housing university log0)
  = fst (calculate_match_percentage housing university log1).
Proof.
  unfold calculate_match_percentage.
  set (f0 := {| frame_log := log0 ++ _ |}).
  set (g0 := {| frame_log := log1 ++ _ |}).
  assert (Hsim : same_result (calculate_match_percentage_try f0)
                             (calculate_match_percentage_try g0)).
  { apply calculate_match_percentage_try_alike.
    repeat split; by apply Forall_forall. }
  clearbody f0 g0.
  destruct (calculate_match_percentage_try f0) as [[x|x|e] f],
           (calculate_match_percentage_try g0) as [[y|y|e'] g];
    cbn [same_result fst] in *; try done; by destruct Hsim.
Qed.

(** Every score the ranker returns is a float between 0.0 and 100.0. *)
Theorem get_all_probas_in_range (university_uuid : string) (w : world) :
  exists results w',
    get_all_probas university_uuid w = (Returned results, w') /\
    Forall (fun r => float_leb float_zero (probability r) = true /\
                     float_leb (probability r) (float_of_int 100) = true)
           results.
Proof.
  destruct (get_all_probas_run university_uuid w)
    as (houses & results & w' & Hrun & Hranks & _).
  exists results, w'. split; [done|].
  clear Hrun. induction Hranks as [|h r hs rs Hr _ IH]; constructor; [|done].
  destruct Hr as (_ & t1 & t2 & l & ->).
  apply calculate_match_percentage_in_range.
Qed.

(** The ranker sends one query for the directory and at most two per
    result: it normalizes the house and the seeker anew for every house. *)
Theorem get_all_probas_queries (university_uuid : string) (w : world) :
  exists results w',
    get_all_probas university_uuid w = (Returned results, w') /\
    (clock w + 1 <= clock w' <= clock w + 1 + 2 * length results)%nat.
Proof.
  destruct (get_all_probas_run university_uuid w)
    as (houses & results & w' & Hrun & Hranks & Hclock).
  exists results, w'. split; [done|].
  by rewrite <- (Forall2_length _ _ _ Hranks).
Qed.

(** On a collection whose answers do not change with time, the ranking is
    the list of the houses of the directory, each with the score of its
    normalized attributes against the normalized attributes of the
    seeker. *)
Theorem get_all_probas_of_static_collection (university_uuid : string)
    (w : world) :
  (forall t t' binary_uuid,
      find_one t binary_uuid = find_one t' binary_uuid) ->
  exists houses w1 w',
    call (R' := list house) get_all_houses
         (emit (INFO, StartingProbas university_uuid) w) = (Value houses, w1) /\
    get_all_probas university_uuid w
    = (Returned
         (map (fun house_uuid =>
                 {| uid := house_uuid;
                    probability :=
                      fst (calculate_match_percentage
                             (filters_at 0 house_uuid)
                             (filters_at 0 university_uuid) []) |})
              houses),
       w').
Proof.
  intros Hstatic.
  assert (Hfilters : forall t s, filters_at t s = filters_at 0 s).
  { intros t s. unfold filters_at, get_filters. unfold_world.
    destruct (uuid_of_str s) as [b|]; unfold_world; [|done].
    rewrite (Hstatic t 0%nat b).
    destruct (find_one 0%nat b) as [[user|]|e]; unfold_world; [|done..].
    by destruct (decide (user = ∅)). }
  destruct (get_all_probas_one_per_house university_uuid w)
    as (houses & w1 & results0 & w2 & Hhouses & Hrun0 & Hmap).
  destruct (get_all_probas_run university_uuid w)
    as (houses' & results & w' & Hrun & Hranks & _).
  rewrite Hrun in Hrun0. injection Hrun0 as <- <-.
  exists houses, w1, w'. split; [done|]. rewrite Hrun. do 2 f_equal.
  assert (Hlen : length houses' = length houses).
  { by rewrite (Forall2_length _ _ _ Hranks), <- Hmap, length_map. }
  clear Hrun Hhouses Hlen. subst houses.
  induction Hranks as [|h r hs rs Hr _ IH]; [done|]. simpl. f_equal; [|done].
  destruct Hr as (Huid & t1 & t2 & l & Hp). destruct r as [u p]. simpl in *.
  subst. f_equal. rewrite (Hfilters t1), (Hfilters t2).
  apply calculate_match_percentage_ignores_log.
Qed.

End Engine.

(** ** The claims on concrete inputs *)

(** A candidate whose pet tolerance is the label itself is vetoed. *)
Lemma allergy_veto_witness :
  (py_in "Alergia" (dict_get allergic_candidate "animais_estimacao" (VList []))
     = Ok true \/
   py_in "Alergia" (dict_get example_seeker "animais_estimacao" (VList []))
     = Ok true) /\
  exists last,
    calculate_match_percentage plain_decimal plain_decimal
      allergic_candidate example_seeker [] =
      (float_zero,
       {| housing_filters := allergic_candidate;
          university_filters := example_seeker;
          total_filters := 0;
          matched_filters := 0;
          frame_log := ([] ++ [(INFO, CalculatingMatch)]) ++ [last] |}) /\
    (last = (INFO, AllergyDetected) \/ last = (ERROR, MatchFailed TypeError)).
Proof.
  assert (H : py_in "Alergia"
                (dict_get allergic_candidate "animais_estimacao" (VList []))
              = Ok true \/
              py_in "Alergia"
                (dict_get example_seeker "animais_estimacao" (VList []))
              = Ok true)
    by (left; reflexivity).
  split; [exact H|].
  exact (allergy_veto plain_decimal plain_decimal
           allergic_candidate example_seeker [] H).
Defined.

(** C2: on the pair of the worked example the scorer counts six filters and
    five matches, and returns 83.33333333333334 (the binary64 number
    5864062014805334 * 2^-46), not five filters, four matches and 80.0: the
    gender preference, matched by the wildcard, is matched once more by the
    loop over the other fields. *)
Theorem worked_example_score :
  let '(score, f) :=
    calculate_match_percentage plain_decimal plain_decimal
      example_candidate example_seeker [] in
  total_filters f = 6 /\
  matched_filters f = 5 /\
  score = S754_finite false 5864062014805334 (-46) /\
  score = float_times_100 (int_truediv 5 6) /\
  score <> float_of_int 80 /\
  frame_log f =
    [ (INFO, CalculatingMatch);
      (DEBUG, PetOverrideApplied);
      (DEBUG, GenderWildcardApplied);
      (DEBUG, OccupancyMatched 2 3);
      (DEBUG, FieldMatches "preferencia_genero");
      (DEBUG, FieldMatches "frequencia_fumo");
      (INFO, PercentageComputed (S754_finite false 5864062014805334 (-46))) ].
Proof. vm_compute. repeat split; congruence. Qed.

(** With every label as the specification spells it, no rule of the scorer
    knows a label of the pair, and the score is 50.0. *)
Lemma worked_example_literal_labels :
  let '(score, f) :=
    calculate_match_percentage plain_decimal plain_decimal
      literal_candidate literal_seeker [] in
  total_filters f = 4 /\ matched_filters f = 2 /\ score = float_of_int 50.
Proof. vm_compute. repeat split; reflexivity. Qed.

(** C3: with the wildcard on one side and no other field in common, the
    gender preference is counted twice: by the wildcard, which removes the
    field from both dictionaries, and by the loop over the other fields,
    which finds it absent on both sides.  The scorer counts two matches out
    of five filters and returns 40.0, not one out of four and 25.0. *)
Theorem gender_wildcard_counted_twice :
  let '(score, f) :=
    calculate_match_percentage plain_decimal plain_decimal
      wildcard_candidate wildcard_seeker [] in
  total_filters f = 5 /\
  matched_filters f = 2 /\
  score = float_of_int 40 /\
  score <> float_of_int 25 /\
  housing_filters f !! "preferencia_genero" = None /\
  university_filters f !! "preferencia_genero" = None /\
  frame_log f =
    [ (INFO, CalculatingMatch);
      (DEBUG, GenderWildcardApplied);
      (DEBUG, FieldMatches "preferencia_genero");
      (INFO, PercentageComputed (float_of_int 40)) ].
Proof. vm_compute. repeat split; congruence. Qed.

(** For an identifier that is no UUID the normalizer returns a dictionary
    that lacks a recognized key: the five keys are not all present. *)
Lemma get_filters_no_data_has_no_keys :
  uuid_of_hex "not-a-uuid" = None /\
  exists d w',
    get_filters uuid_of_hex example_find_one "not-a-uuid" start
      = (Returned d, w') /\
    ~ Forall (fun field => is_Some (d !! field)) fields_to_process.
Proof.
  split; [reflexivity|].
  do 2 eexists. split; [vm_compute; reflexivity|].
  intros H. apply Forall_cons in H as [[v Hv] _]. discriminate Hv.
Qed.

(** A well-formed identifier the example collection has no document for. *)
Lemma get_filters_no_data_witness :
  (uuid_of_hex "00000000-0000-0000-0000-000000000000" = None \/
   exists binary_uuid,
     uuid_of_hex "00000000-0000-0000-0000-000000000000" = Some binary_uuid /\
     example_find_one (clock start) binary_uuid = Ok None) /\
  exists d w',
    get_filters uuid_of_hex example_find_one
      "00000000-0000-0000-0000-000000000000" start = (Returned d, w') /\
    d = ∅ /\
    Forall (fun field => d !! field = None) fields_to_process.
Proof.
  assert (H : uuid_of_hex "00000000-0000-0000-0000-000000000000" = None \/
              exists binary_uuid,
                uuid_of_hex "00000000-0000-0000-0000-000000000000"
                  = Some binary_uuid /\
                example_find_one (clock start) binary_uuid = Ok None).
  { right. eexists. split; reflexivity. }
  split; [exact H|].
  exact (get_filters_no_data uuid_of_hex example_find_one
           "00000000-0000-0000-0000-000000000000" start H).
Defined.

(** C5: a record that is found without [numero_maximo_pessoas] normalizes to
    [None], whose conversion raises a [TypeError]; the handler of the
    occupancy rule catches [ValueError] only, so the scorer gives up the
    pair and returns 0.0 with no filter counted, though every other field
    agrees. *)
Theorem missing_occupancy_is_fatal :
  let '(score, f) :=
    calculate_match_percentage plain_decimal plain_decimal
      no_occupancy_candidate no_occupancy_seeker [] in
  py_int plain_decimal plain_decimal
    (dict_get no_occupancy_candidate "numero_maximo_pessoas" (VInt 0))
    = Raise TypeError /\
  score = float_zero /\
  score <> float_of_int 75 /\
  total_filters f = 0 /\
  matched_filters f = 0 /\
  frame_log f = [ (INFO, CalculatingMatch); (ERROR, MatchFailed TypeError) ].
Proof. vm_compute. repeat split; congruence. Qed.

(** C7: the ranker returns one result per identifier of the directory, in
    the order of the directory; and it does not sort them: on a directory
    with two houses it returns the score 25.0 before the score 100.0. *)
Theorem ranker_follows_directory_order :
  (forall int_of_str int_of_bytes uuid_of_str uuid_str_of_bytes find_one
          find_houses (university_uuid : string) (w : world),
      exists houses w1 results w2,
        call (R' := list house) (get_all_houses uuid_str_of_bytes find_houses)
             (emit (INFO, StartingProbas university_uuid) w)
          = (Value houses, w1) /\
        get_all_probas int_of_str int_of_bytes uuid_of_str uuid_str_of_bytes
          find_one find_houses university_uuid w = (Returned results, w2) /\
        map uid results = houses) /\
  (exists w',
      get_all_probas plain_decimal plain_decimal uuid_of_hex uuid_hex_of_bytes
        example_find_one example_find_houses seeker_uuid start
      = (Returned
           [ {| uid := house1_uuid; probability := float_of_int 25 |};
             {| uid := house2_uuid; probability := float_of_int 100 |} ],
         w') /\
      float_ltb (float_of_int 25) (float_of_int 100) = true).
Proof.
  split.
  - intros. apply get_all_probas_one_per_house.
  - eexists. split; vm_compute; reflexivity.
Qed.

(** A collection that cannot be reached gives the empty ranking, and a
    candidate without occupancy, whose conversion raises, the score 0.0. *)
Lemma engine_degrades_witness :
  (failing_find_houses (clock start)
     = Raise (OtherException "ServerSelectionTimeoutError") /\
   exists w',
     get_all_probas plain_decimal plain_decimal uuid_of_hex uuid_hex_of_bytes
       failing_find_one failing_find_houses seeker_uuid start
     = (Returned [], w')) /\
  (fst (calculate_match_percentage_try plain_decimal plain_decimal
          {| housing_filters := no_occupancy_candidate;
             university_filters := no_occupancy_seeker;
             total_filters := 0;
             matched_filters := 0;
             frame_log := [] ++ [(INFO, CalculatingMatch)] |})
     = Raised TypeError /\
   fst (calculate_match_percentage plain_decimal plain_decimal
          no_occupancy_candidate no_occupancy_seeker []) = float_zero).
Proof.
  destruct (engine_degrades plain_decimal plain_decimal uuid_of_hex
              uuid_hex_of_bytes failing_find_one failing_find_houses
              seeker_uuid start no_occupancy_candidate no_occupancy_seeker [])
    as (Hdirectory & Hscorer & _).
  split; split.
  - reflexivity.
  - apply (Hdirectory (OtherException "ServerSelectionTimeoutError")).
    left. reflexivity.
  - vm_compute. reflexivity.
  - apply (Hscorer TypeError
             (snd (calculate_match_percentage_try plain_decimal plain_decimal
                     {| housing_filters := no_occupancy_candidate;
                        university_filters := no_occupancy_seeker;
                        total_filters := 0;
                        matched_filters := 0;
                        frame_log := [] ++ [(INFO, CalculatingMatch)] |}))).
    vm_compute. reflexivity.
Defined.

(** C9: two sides with the same occupancy, 2, and the same other fields,
    whose pet texts are "Al" and "ergia".  Neither text holds the label
    "Alergia", but the pet rule adds the two texts and looks for the label
    in the sum: the label stands at the junction in one order only, so the
    score is 0.0 with the first side as the candidate and 100.0 with the
    roles swapped, where equal occupancy should make the two scores equal. *)
Theorem score_not_symmetric_at_junction :
  split_label_candidate !! "numero_maximo_pessoas"
    = split_label_seeker !! "numero_maximo_pessoas" /\
  py_in "Alergia" (dict_get split_label_candidate "animais_estimacao" (VList []))
    = Ok false /\
  py_in "Alergia" (dict_get split_label_seeker "animais_estimacao" (VList []))
    = Ok false /\
  fst (calculate_match_percentage plain_decimal plain_decimal
         split_label_candidate split_label_seeker []) = float_zero /\
  fst (calculate_match_percentage plain_decimal plain_decimal
         split_label_seeker split_label_candidate []) = float_of_int 100 /\
  fst (calculate_match_percentage plain_decimal plain_decimal
         split_label_candidate split_label_seeker [])
  <> fst (calculate_match_percentage plain_decimal plain_decimal
            split_label_seeker split_label_candidate []).
Proof. vm_compute. repeat split; congruence. Qed.

(** Two sides with the same occupancy whose pet labels are found in both
    orders alike. *)
Lemma score_symmetric_witness :
  (py_eq (dict_get same_occupancy_a "numero_maximo_pessoas" (VInt 0))
         (dict_get same_occupancy_b "numero_maximo_pessoas" (VInt 0)) = true /\
   Forall (fun label =>
             pet_test label
               (dict_get same_occupancy_a "animais_estimacao" (VList []))
               (dict_get same_occupancy_b "animais_estimacao" (VList []))
             = pet_test label
                 (dict_get same_occupancy_b "animais_estimacao" (VList []))
                 (dict_get same_occupancy_a "animais_estimacao" (VList [])))
          pet_labels) /\
  fst (calculate_match_percentage plain_decimal plain_decimal
         same_occupancy_a same_occupancy_b [])
  = fst (calculate_match_percentage plain_decimal plain_decimal
           same_occupancy_b same_occupancy_a []).
Proof.
  assert (Hocc : py_eq (dict_get same_occupancy_a "numero_maximo_pessoas" (VInt 0))
                       (dict_get same_occupancy_b "numero_maximo_pessoas" (VInt 0))
                 = true) by reflexivity.
  assert (Hpets :
    Forall (fun label =>
              pet_test label
                (dict_get same_occupancy_a "animais_estimacao" (VList []))
                (dict_get same_occupancy_b "animais_estimacao" (VList []))
              = pet_test label
                  (dict_get same_occupancy_b "animais_estimacao" (VList []))
                  (dict_get same_occupancy_a "animais_estimacao" (VList [])))
           pet_labels)
    by (repeat constructor).
  split; [split; [exact Hocc | exact Hpets]|].
  exact (score_symmetric plain_decimal plain_decimal
           same_occupancy_a same_occupancy_b [] [] Hocc Hpets).
Defined.

(** C10: on two texts the pet rule looks for each label in the first text
    followed by the second.  The veto fires, and the score is 0.0, for the
    texts "Al" and "ergia", neither of which holds the label, and for the
    text "Sem Alergia", which is not the label and holds it. *)
Theorem pet_labels_sought_in_concatenation :
  (forall (a b : string) (h u : dict) (t m : Z) (l : list log_record),
      pet_rule
        {| housing_filters := <["animais_estimacao" := VStr a]> h;
           university_filters := <["animais_estimacao" := VStr b]> u;
           total_filters := t; matched_filters := m; frame_log := l |}
      = if str_contains "Alergia" (a +:+ b) then
          (Returned float_zero,
           {| housing_filters := <["animais_estimacao" := VStr a]> h;
              university_filters := <["animais_estimacao" := VStr b]> u;
              total_filters := t; matched_filters := m;
              frame_log := l ++ [(INFO, AllergyDetected)] |})
        else if str_contains "Gosto muito" (a +:+ b)
                || str_contains "Não tenho, mas amo" (a +:+ b) then
          (Value tt,
           {| housing_filters :=
                delete "animais_estimacao" (<["animais_estimacao" := VStr a]> h);
              university_filters :=
                delete "animais_estimacao" (<["animais_estimacao" := VStr b]> u);
              total_filters := t + 1; matched_filters := m + 1;
              frame_log := l ++ [(DEBUG, PetOverrideApplied)] |})
        else
          (Value tt,
           {| housing_filters := <["animais_estimacao" := VStr a]> h;
              university_filters := <["animais_estimacao" := VStr b]> u;
              total_filters := t; matched_filters := m; frame_log := l |})) /\
  (split_label_candidate !! "animais_estimacao" = Some (VStr "Al") /\
   split_label_seeker !! "animais_estimacao" = Some (VStr "ergia") /\
   py_in "Alergia" (VStr "Al") = Ok false /\
   py_in "Alergia" (VStr "ergia") = Ok false /\
   let '(score, f) :=
     calculate_match_percentage plain_decimal plain_decimal
       split_label_candidate split_label_seeker [] in
   score = float_zero /\
   frame_log f = [ (INFO, CalculatingMatch); (INFO, AllergyDetected) ]) /\
  (substring_candidate !! "animais_estimacao" = Some (VStr "Sem Alergia") /\
   py_eq (VStr "Sem Alergia") (VStr "Alergia") = false /\
   let '(score, f) :=
     calculate_match_percentage plain_decimal plain_decimal
       substring_candidate example_seeker [] in
   score = float_zero /\
   frame_log f = [ (INFO, CalculatingMatch); (INFO, AllergyDetected) ]).
Proof.
  split; [|split].
  - intros. apply pet_rule_on_strings; apply lookup_insert_eq.
  - vm_compute. repeat split; reflexivity.
  - vm_compute. repeat split; reflexivity.
Qed.

(** ** Further properties on concrete inputs *)

(** A field the scorer does not know changes neither the score nor the
    counters of the worked example. *)
Lemma score_depends_on_recognized_fields_witness :
  (same_fields example_candidate tagged_candidate /\
   same_fields example_seeker example_seeker) /\
  let '(score, f) :=
    calculate_match_percentage plain_decimal plain_decimal
      example_candidate example_seeker [] in
  let '(score', f') :=
    calculate_match_percentage plain_decimal plain_decimal
      tagged_candidate example_seeker [(INFO, FetchingHouses)] in
  score = score' /\
  total_filters f = total_filters f' /\
  matched_filters f = matched_filters f'.
Proof.
  assert (Hh : same_fields example_candidate tagged_candidate)
    by (unfold same_fields; repeat constructor).
  assert (Hu : same_fields example_seeker example_seeker)
    by (unfold same_fields; repeat constructor).
  split; [split; [exact Hh | exact Hu]|].
  exact (score_depends_on_recognized_fields plain_decimal plain_decimal
           example_candidate tagged_candidate example_seeker example_seeker
           [] [(INFO, FetchingHouses)] Hh Hu).
Defined.

(** The wildcard itself is counted; a text that holds it as a part is
    not. *)
Lemma gender_wildcard_is_exact_witness :
  ((dict_get wildcard_candidate "preferencia_genero" (VStr "")
      = VStr "Tanto faz" \/
    dict_get wildcard_seeker "preferencia_genero" (VStr "")
      = VStr "Tanto faz") /\
   gender_rule
     {| housing_filters := wildcard_candidate;
        university_filters := wildcard_seeker;
        total_filters := 0; matched_filters := 0; frame_log := [] |}
   = (Value tt,
      {| housing_filters := delete "preferencia_genero" wildcard_candidate;
         university_filters := delete "preferencia_genero" wildcard_seeker;
         total_filters := 0 + 1; matched_filters := 0 + 1;
         frame_log := [] ++ [(DEBUG, GenderWildcardApplied)] |})) /\
  ((dict_get partial_wildcard_candidate "preferencia_genero" (VStr "")
      <> VStr "Tanto faz" /\
    dict_get wildcard_seeker "preferencia_genero" (VStr "")
      <> VStr "Tanto faz") /\
   gender_rule
     {| housing_filters := partial_wildcard_candidate;
        university_filters := wildcard_seeker;
        total_filters := 0; matched_filters := 0; frame_log := [] |}
   = (Value tt,
      {| housing_filters := partial_wildcard_candidate;
         university_filters := wildcard_seeker;
         total_filters := 0; matched_filters := 0; frame_log := [] |})).
Proof.
  assert (H1 : dict_get wildcard_candidate "preferencia_genero" (VStr "")
               = VStr "Tanto faz" \/
               dict_get wildcard_seeker "preferencia_genero" (VStr "")
               = VStr "Tanto faz") by (left; reflexivity).
  assert (H2 : dict_get partial_wildcard_candidate "preferencia_genero" (VStr "")
               <> VStr "Tanto faz") by (vm_compute; discriminate).
  assert (H3 : dict_get wildcard_seeker "preferencia_genero" (VStr "")
               <> VStr "Tanto faz") by (vm_compute; discriminate).
  split.
  - split; [exact H1|].
    exact (proj1 (gender_wildcard_is_exact
                    {| housing_filters := wildcard_candidate;
                       university_filters := wildcard_seeker;
                       total_filters := 0; matched_filters := 0;
                       frame_log := [] |}) H1).
  - split; [split; [exact H2 | exact H3]|].
    exact (proj2 (gender_wildcard_is_exact
                    {| housing_filters := partial_wildcard_candidate;
                       university_filters := wildcard_seeker;
                       total_filters := 0; matched_filters := 0;
                       frame_log := [] |}) H2 H3).
Defined.

(** A seeker with a text as pet tolerance against a side without data. *)
Lemma no_data_against_pet_value_scores_zero_witness :
  (example_seeker !! "animais_estimacao" = Some (VStr "Tanto faz") /\
   forall l, VStr "Tanto faz" <> VList l) /\
  fst (calculate_match_percentage plain_decimal plain_decimal
         ∅ example_seeker []) = float_zero /\
  fst (calculate_match_percentage plain_decimal plain_decimal
         example_seeker ∅ []) = float_zero.
Proof.
  assert (Hv : example_seeker !! "animais_estimacao" = Some (VStr "Tanto faz"))
    by reflexivity.
  assert (Hl : forall l, VStr "Tanto faz" <> VList l)
    by (intros l; discriminate).
  split; [split; [exact Hv | exact Hl]|].
  exact (no_data_against_pet_value_scores_zero plain_decimal plain_decimal
           example_seeker (VStr "Tanto faz") [] Hv Hl).
Defined.

(** The empty dictionary against a dictionary with an unknown field only. *)
Lemma no_data_pair_scores_100_witness :
  (Forall (fun field => (∅ : dict) !! field = None) fields_to_process /\
   Forall (fun field =>
             ({["tipo" := VStr "moradia"]} : dict) !! field = None)
          fields_to_process) /\
  let '(score, f) :=
    calculate_match_percentage plain_decimal plain_decimal
      ∅ {["tipo" := VStr "moradia"]} [] in
  score = float_of_int 100 /\ total_filters f = 4 /\ matched_filters f = 4.
Proof.
  assert (Hh : Forall (fun field => (∅ : dict) !! field = None)
                 fields_to_process) by (repeat constructor).
  assert (Hu : Forall (fun field =>
                         ({["tipo" := VStr "moradia"]} : dict) !! field = None)
                 fields_to_process) by (repeat constructor).
  split; [split; [exact Hh | exact Hu]|].
  exact (no_data_pair_scores_100 plain_decimal plain_decimal
           ∅ {["tipo" := VStr "moradia"]} [] Hh Hu).
Defined.

(** Two sides whose pet tolerance is a list, with the same occupancy. *)
Lemma score_symmetric_on_lists_witness :
  (dict_get list_candidate "animais_estimacao" (VList [])
     = VList [VStr "Gosto muito"; VStr "Tenho"] /\
   dict_get list_seeker "animais_estimacao" (VList []) = VList [VStr "Tenho"] /\
   py_eq (dict_get list_candidate "numero_maximo_pessoas" (VInt 0))
         (dict_get list_seeker "numero_maximo_pessoas" (VInt 0)) = true) /\
  fst (calculate_match_percentage plain_decimal plain_decimal
         list_candidate list_seeker [])
  = fst (calculate_match_percentage plain_decimal plain_decimal
           list_seeker list_candidate []).
Proof.
  assert (Ha : dict_get list_candidate "animais_estimacao" (VList [])
               = VList [VStr "Gosto muito"; VStr "Tenho"]) by reflexivity.
  assert (Hb : dict_get list_seeker "animais_estimacao" (VList [])
               = VList [VStr "Tenho"]) by reflexivity.
  assert (Hocc : py_eq (dict_get list_candidate "numero_maximo_pessoas" (VInt 0))
                       (dict_get list_seeker "numero_maximo_pessoas" (VInt 0))
                 = true) by reflexivity.
  split; [split; [exact Ha | split; [exact Hb | exact Hocc]]|].
  exact (score_symmetric_on_lists plain_decimal plain_decimal
           list_candidate list_seeker _ _ [] [] Ha Hb Hocc).
Defined.

(** The worked example by the closed formula: the override, the wildcard
    twice, the occupancy and the smoking make five matches out of six. *)
Lemma score_of_text_attributes_witness :
  (example_candidate !! "animais_estimacao" = Some (VStr "Gosto muito") /\
   example_candidate !! "preferencia_genero" = Some (VStr "Women only") /\
   example_candidate !! "numero_maximo_pessoas" = Some (VInt 2) /\
   example_candidate !! "frequencia_fumo" = Some (VStr "Never") /\
   example_candidate !! "frequencia_bebida" = Some (VStr "Never") /\
   example_seeker !! "animais_estimacao" = Some (VStr "Tanto faz") /\
   example_seeker !! "preferencia_genero" = Some (VStr "Tanto faz") /\
   example_seeker !! "numero_maximo_pessoas" = Some (VInt 3) /\
   example_seeker !! "frequencia_fumo" = Some (VStr "Never") /\
   example_seeker !! "frequencia_bebida" = Some (VStr "Occasionally")) /\
  let '(score, f) :=
    calculate_match_percentage plain_decimal plain_decimal
      example_candidate example_seeker [] in
  total_filters f = 6 /\ matched_filters f = 5 /\
  score = float_times_100 (int_truediv 5 6).
Proof.
  assert (H1 : example_candidate !! "animais_estimacao"
               = Some (VStr "Gosto muito")) by reflexivity.
  assert (H2 : example_candidate !! "preferencia_genero"
               = Some (VStr "Women only")) by reflexivity.
  assert (H3 : example_candidate !! "numero_maximo_pessoas"
               = Some (VInt 2)) by reflexivity.
  assert (H4 : example_candidate !! "frequencia_fumo"
               = Some (VStr "Never")) by reflexivity.
  assert (H5 : example_candidate !! "frequencia_bebida"
               = Some (VStr "Never")) by reflexivity.
  assert (H6 : example_seeker !! "animais_estimacao"
               = Some (VStr "Tanto faz")) by reflexivity.
  assert (H7 : example_seeker !! "preferencia_genero"
               = Some (VStr "Tanto faz")) by reflexivity.
  assert (H8 : example_seeker !! "numero_maximo_pessoas"
               = Some (VInt 3)) by reflexivity.
  assert (H9 : example_seeker !! "frequencia_fumo"
               = Some (VStr "Never")) by reflexivity.
  assert (H10 : example_seeker !! "frequencia_bebida"
                = Some (VStr "Occasionally")) by reflexivity.
  split; [by repeat split|].
  exact (score_of_text_attributes plain_decimal plain_decimal
           example_candidate example_seeker
           "Gosto muito" "Women only" "Never" "Never"
           "Tanto faz" "Tanto faz" "Never" "Occasionally" 2 3 []
           H1 H2 H3 H4 H5 H6 H7 H8 H9 H10).
Defined.

(** The seeker of the example collection: the brackets of its pet tolerance
    are stripped, and its tag and identifier are left out. *)
Lemma get_filters_found_keys_witness :
  (uuid_of_hex seeker_uuid = Some seeker_id /\
   example_find_one (clock start) seeker_id = Ok (Some seeker_document) /\
   seeker_document <> ∅) /\
  exists d w',
    get_filters uuid_of_hex example_find_one seeker_uuid start
      = (Returned d, w') /\
    dom d = list_to_set fields_to_process /\
    Forall (fun field =>
              d !! field
              = Some (strip_brackets (dict_get seeker_document field VNone)))
           fields_to_process.
Proof.
  assert (H1 : uuid_of_hex seeker_uuid = Some seeker_id) by reflexivity.
  assert (H2 : example_find_one (clock start) seeker_id
               = Ok (Some seeker_document)) by reflexivity.
  assert (H3 : seeker_document <> ∅).
  { intros H. apply (f_equal (fun d : dict => d !! "tipo")) in H.
    vm_compute in H. discriminate H. }
  split; [split; [exact H1 | split; [exact H2 | exact H3]]|].
  exact (get_filters_found_keys uuid_of_hex example_find_one
           seeker_uuid seeker_id start seeker_document H1 H2 H3).
Defined.

(** A collection that cannot be reached. *)
Lemma get_filters_degrades_witness :
  (uuid_of_hex seeker_uuid = Some seeker_id /\
   ((exists e, failing_find_one (clock start) seeker_id = Raise e) \/
    failing_find_one (clock start) seeker_id = Ok (Some ∅))) /\
  exists w',
    get_filters uuid_of_hex failing_find_one seeker_uuid start
      = (Returned ∅, w').
Proof.
  assert (H1 : uuid_of_hex seeker_uuid = Some seeker_id) by reflexivity.
  assert (H2 : (exists e, failing_find_one (clock start) seeker_id = Raise e) \/
               failing_find_one (clock start) seeker_id = Ok (Some ∅)).
  { left. eexists. reflexivity. }
  split; [split; [exact H1 | exact H2]|].
  exact (get_filters_degrades uuid_of_hex failing_find_one
           seeker_uuid seeker_id start H1 H2).
Defined.

(** Of four documents the directory lists the two that hold sixteen bytes. *)
Lemma get_all_houses_lists_documents_witness :
  (mixed_find_houses (clock start) = Ok mixed_cursor /\
   cursor_raises mixed_cursor = None /\
   Forall (fun d => ~ conversion_aborts uuid_hex_of_bytes d)
          (cursor_documents mixed_cursor)) /\
  omap (listed_uuid uuid_hex_of_bytes) (cursor_documents mixed_cursor)
    = [house1_uuid; house2_uuid] /\
  exists w',
    get_all_houses uuid_hex_of_bytes mixed_find_houses start
    = (Returned (omap (listed_uuid uuid_hex_of_bytes)
                   (cursor_documents mixed_cursor)), w').
Proof.
  assert (H1 : mixed_find_houses (clock start) = Ok mixed_cursor)
    by reflexivity.
  assert (H2 : cursor_raises mixed_cursor = None) by reflexivity.
  assert (H3 : Forall (fun d => ~ conversion_aborts uuid_hex_of_bytes d)
                 (cursor_documents mixed_cursor)).
  { repeat constructor; intros (Ht & e & He & Hc);
      vm_compute in Ht, He; try discriminate;
      injection He as <-; discriminate. }
  split; [split; [exact H1 | split; [exact H2 | exact H3]]|].
  split; [reflexivity|].
  exact (get_all_houses_lists_documents uuid_hex_of_bytes mixed_find_houses
           start mixed_cursor H1 H2 H3).
Defined.

(** An identifier held as a text of sixteen characters fails the assertion
    of the conversion, and the house listed before it is lost. *)
Lemma get_all_houses_aborts_witness :
  (text_id_find_houses (clock start) = Ok text_id_cursor /\
   Exists (conversion_aborts asserting_uuid_hex_of_bytes)
          (cursor_documents text_id_cursor)) /\
  exists w',
    get_all_houses asserting_uuid_hex_of_bytes text_id_find_houses start
    = (Returned [], w').
Proof.
  assert (H1 : text_id_find_houses (clock start) = Ok text_id_cursor)
    by reflexivity.
  assert (H2 : Exists (conversion_aborts asserting_uuid_hex_of_bytes)
                 (cursor_documents text_id_cursor)).
  { apply Exists_cons_tl, Exists_cons_hd.
    split; [reflexivity|]. eexists. split; reflexivity. }
  split; [split; [exact H1 | exact H2]|].
  exact (get_all_houses_aborts asserting_uuid_hex_of_bytes
           text_id_find_houses start text_id_cursor H1 H2).
Defined.

(** The example collection answers the same at every time. *)
Lemma get_all_probas_of_static_collection_witness :
  (forall t t' binary_uuid,
      example_find_one t binary_uuid = example_find_one t' binary_uuid) /\
  exists houses w1 w',
    call (R' := list house)
         (get_all_houses uuid_hex_of_bytes example_find_houses)
         (emit (INFO, StartingProbas seeker_uuid) start) = (Value houses, w1) /\
    get_all_probas plain_decimal plain_decimal uuid_of_hex uuid_hex_of_bytes
      example_find_one example_find_houses seeker_uuid start
    = (Returned
         (map (fun house_uuid =>
                 {| uid := house_uuid;
                    probability :=
                      fst (calculate_match_percentage
                             plain_decimal plain_decimal
                             (filters_at uuid_of_hex example_find_one 0
                                house_uuid)
                             (filters_at uuid_of_hex example_find_one 0
                                seeker_uuid) []) |})
              houses),
       w').
Proof.
  assert (H : forall t t' binary_uuid,
             example_find_one t binary_uuid = example_find_one t' binary_uuid)
    by reflexivity.
  split; [exact H|].
  exact (get_all_probas_of_static_collection plain_decimal plain_decimal
           uuid_of_hex uuid_hex_of_bytes example_find_one example_find_houses
           seeker_uuid start H).
Defined.
